(** * BIRD schema statistics: a shallow embedding of the two reporting scripts

    [analyze_database_table_column.py] walks a directory for SQLite files,
    counts the columns of every table and renders a histogram;
    [analyze_database_tables.py] collects one record per table and writes a
    CSV report.  The embedding below follows the two scripts function by
    function.  What the scripts obtain from their environment (the directory
    tree seen by [os.walk], the answers of the SQLite engine) is an explicit
    argument; what they print is an explicit output. *)

From Stdlib Require Import Ascii QArith Qround.
From stdpp Require Import gmap strings list fin_maps pretty sorting.

Close Scope Q_scope.
Open Scope string_scope.

(** ** Python built-ins used by the scripts *)

Module Py.

(** [print]: every function that prints returns its value together with the
    list of the strings handed to [print], oldest first. *)
Definition IO (A : Type) : Type := A * list string.

Definition ret {A} (a : A) : IO A := (a, []).

Definition bind {A B} (c : IO A) (k : A -> IO B) : IO B :=
  let r := k (fst c) in (fst r, (snd c ++ snd r)%list).

Definition print (line : string) : IO unit := (tt, [line]).

(** [for x in l: body], the loop state threaded through the body. *)
Fixpoint for_each {A S} (l : list A) (body : A -> S -> IO S) (s : S) : IO S :=
  match l with
  | [] => ret s
  | x :: rest => bind (body x s) (for_each rest body)
  end.

(** [s.endswith(suffix)] *)
Definition endswith (s suffix : string) : bool :=
  let n := String.length s in
  let m := String.length suffix in
  (m <=? n)%nat && String.eqb (String.substring (n - m) m s) suffix.

(** [sep.join(l)] *)
Definition join (sep : string) (l : list string) : string := String.concat sep l.

(** [s.rfind(c)] for a one-character needle: the last index, or -1. *)
Fixpoint rfind_from (c : ascii) (s : string) (i last : Z) : Z :=
  match s with
  | EmptyString => last
  | String a rest => rfind_from c rest (i + 1) (if Ascii.eqb a c then i else last)
  end.

Definition rfind (c : ascii) (s : string) : Z := rfind_from c s 0 (-1).

(** [s[i:]] and [s[:i]] for [0 <= i]. *)
Definition slice_from (i : Z) (s : string) : string :=
  String.substring (Z.to_nat i) (String.length s - Z.to_nat i) s.

Definition slice_to (i : Z) (s : string) : string :=
  String.substring 0 (Z.to_nat i) s.

(** A [dict] with string keys.  Python dicts keep insertion order, and an
    assignment to an existing key replaces the value where the key already
    stands; [items] iterates in that order. *)
Definition dict (V : Type) : Type := list (string * V).

Fixpoint dict_set {V} (d : dict V) (k : string) (v : V) : dict V :=
  match d with
  | [] => [(k, v)]
  | (k', v') :: rest =>
      if String.eqb k' k then (k, v) :: rest else (k', v') :: dict_set rest k v
  end.

Definition items {V} (d : dict V) : list (string * V) := d.

(** [d[k] += 1] on a [defaultdict(int)] with integer keys. *)
Definition incr (d : gmap Z Z) (k : Z) : gmap Z Z :=
  <[k := (default 0 (d !! k) + 1)%Z]> d.

(** [sorted(l)] on integers. *)
Definition sorted (l : list Z) : list Z := merge_sort Z.le l.

Inductive exception : Type :=
| ValueError (msg : string).

(** [min(l)] and [max(l)]: both raise [ValueError] on an empty sequence. *)
Definition min (l : list Z) : exception + Z :=
  match l with
  | [] => inl (ValueError "min() arg is an empty sequence")
  | x :: rest => inr (foldl Z.min x rest)
  end.

Definition max (l : list Z) : exception + Z :=
  match l with
  | [] => inl (ValueError "max() arg is an empty sequence")
  | x :: rest => inr (foldl Z.max x rest)
  end.

End Py.

Notation "'let*' x ':=' c 'in' k" := (Py.bind c (fun x => k))
  (at level 10, x pattern, c at level 100, k at level 200).

(** ** [os.path] (POSIX flavour) *)

Module os_path.

Definition sep : ascii := "/"%char.
Definition extsep : ascii := "."%char.

(** [os.path.join(a, b)] *)
Definition join (a b : string) : string :=
  if String.prefix "/" b then b
  else if String.eqb a EmptyString || Py.endswith a "/" then a ++ b
  else a ++ "/" ++ b.

(** [os.path.basename(p)]: [i = p.rfind('/') + 1; return p[i:]] *)
Definition basename (p : string) : string :=
  let i := (Py.rfind sep p + 1)%Z in
  Py.slice_from i p.

(** The loop of [genericpath._splitext] that skips leading dots: is there a
    character other than the dot in [p[filenameIndex:dotIndex]]? *)
Fixpoint has_non_dot (p : string) (filenameIndex count : nat) : bool :=
  match count with
  | O => false
  | S count' =>
      match String.get filenameIndex p with
      | Some c => if Ascii.eqb c extsep then has_non_dot p (S filenameIndex) count' else true
      | None => true
      end
  end.

(** [os.path.splitext(p)] *)
Definition splitext (p : string) : string * string :=
  let sepIndex := Py.rfind sep p in
  let dotIndex := Py.rfind extsep p in
  if (sepIndex <? dotIndex)%Z
     && has_non_dot p (Z.to_nat (sepIndex + 1)) (Z.to_nat (dotIndex - (sepIndex + 1)))
  then (Py.slice_to dotIndex p, Py.slice_from dotIndex p)
  else (p, EmptyString).

End os_path.

(** ** The environment of a run *)

(** A directory as [os.walk] lists it: its sub-directories in listing order,
    and the names of its entries that are not directories. *)
#[local] Unset Elimination Schemes.
Inductive Dir : Type :=
| Directory (dirs : list (string * Dir)) (files : list string).
#[local] Set Elimination Schemes.

(** The answer of the SQLite engine to a statement: the rows, or the message
    of the exception that [execute]/[fetchall] raises. *)
Inductive answer (A : Type) : Type :=
| Rows (rows : A)
| Raises (msg : string).
Arguments Rows {A} _.
Arguments Raises {A} _.

(** One row of [PRAGMA table_info(t)]. *)
Record column_row : Type := {
  col_cid : Z;
  col_name : string;
  col_type : string;
  col_notnull : Z;
  col_dflt_value : option string;
  col_pk : Z
}.

(** What the engine does with one database file: [sqlite3.connect] (the
    message of the exception, or [None] when it succeeds), the table names
    listed by [sqlite_master], and the two per-table statements, which the
    scripts build by splicing the table name into the SQL text. *)
Record Database : Type := {
  connect : option string;
  select_tables : answer (list string);
  pragma_table_info : string -> answer (list column_row);
  select_count : string -> answer Z
}.

Record World : Type := {
  (** the tree under a root path; [None] when [os.scandir] fails on the root
      (no such directory), which [os.walk] swallows *)
  listing : string -> option Dir;
  sqlite : string -> Database
}.

(** [os.walk(top)], top-down. *)
Fixpoint walk_dir (top : string) (d : Dir) : list (string * list string * list string) :=
  match d with
  | Directory dirs files =>
      (top, map fst dirs, files)
        :: flat_map (fun entry => walk_dir (os_path.join top (fst entry)) (snd entry)) dirs
  end.

Definition os_walk (w : World) (top : string) : list (string * list string * list string) :=
  match listing w top with
  | Some d => walk_dir top d
  | None => []
  end.

(** ** plotly figures *)

Module plotly.

(** A [go.Bar] trace. *)
Record Bar : Type := {
  x : list Z;
  y : list Z;
  text : list Z;
  textposition : string
}.

(** The [xaxis] settings.  Floats of the script ([0.5], and the integers
    they are subtracted from and added to) are carried as rationals: below
    2^52 in absolute value the float arithmetic of [k - 0.5] and [k + 0.5]
    is exact. *)
Record XAxis : Type := {
  dtick : Z;
  tickmode : string;
  range : Q * Q
}.

Record Layout : Type := {
  title_text : string;
  title_x : Q;
  title_xanchor : string;
  xaxis_title : string;
  yaxis_title : string;
  xaxis : XAxis;
  bargap : Q
}.

Record Figure : Type := {
  data : list Bar;
  layout : option Layout
}.

Definition add_trace (fig : Figure) (b : Bar) : Figure :=
  {| data := data fig ++ [b]; layout := layout fig |}.

Definition update_layout (fig : Figure) (l : Layout) : Figure :=
  {| data := data fig; layout := Some l |}.

(** Where a ['linear'] axis draws its ticks: at [tick0 + n * dtick] (with
    [tick0] left at its default 0) for every such position inside the
    range. *)
Definition ticks (ax : XAxis) : list Z :=
  let lo := Qceiling (fst (range ax)) in
  let hi := Qfloor (snd (range ax)) in
  filter (fun t => Z.rem t (dtick ax) = 0%Z) (seqZ lo (hi - lo + 1)).

Definition xticks (fig : Figure) : list Z :=
  match layout fig with
  | Some l => ticks (xaxis l)
  | None => []
  end.

End plotly.

(** ** analyze_database_table_column.py *)

Module analyze_database_table_column.
Section Script.

Variable w : World.

Definition is_database_file (file : string) : bool :=
  Py.endswith file ".sqlite" || Py.endswith file ".db".

Definition get_database_files (root_dir : string) : list string :=
  flat_map
    (fun '(root, dirs, files) =>
       flat_map
         (fun file =>
            if is_database_file file then [os_path.join root file] else [])
         files)
    (os_walk w root_dir).

(** The value stored for one table: [{'columns': ..., 'count': ...}]. *)
Record stats : Type := {
  columns : list string;
  count : Z
}.

(** The [for (table_name,) in tables] loop of [get_column_stats].  It runs
    inside the [try]; [table_stats] was created before the [try] and is
    updated in place, so what was stored before an exception stays in it. *)
Fixpoint column_stats_loop (db : Database) (tables : list string)
    (table_stats : Py.dict stats) : Py.dict stats * option string :=
  match tables with
  | [] => (table_stats, None)
  | table_name :: rest =>
      match pragma_table_info db table_name with
      | Raises e => (table_stats, Some e)
      | Rows columns =>
          column_stats_loop db rest
            (Py.dict_set table_stats table_name
               {| columns := map col_name columns;
                  count := Z.of_nat (length columns) |})
      end
  end.

(** The body of the [try] block: the dictionary as the block leaves it, and
    the message of the exception when one was raised. *)
Definition column_stats_try (db : Database) (table_stats : Py.dict stats)
    : Py.dict stats * option string :=
  match connect db with
  | Some e => (table_stats, Some e)
  | None =>
      match select_tables db with
      | Raises e => (table_stats, Some e)
      | Rows tables => column_stats_loop db tables table_stats
      end
  end.

Definition error_line (db_path e : string) : string :=
  "处理数据库 " ++ db_path ++ " 时出错: " ++ e.

Definition get_column_stats (db_path : string) : Py.IO (Py.dict stats) :=
  let table_stats := [] in
  let '(table_stats, raised) := column_stats_try (sqlite w db_path) table_stats in
  let* _ := match raised with
            | Some e => Py.print (error_line db_path e)
            | None => Py.ret tt
            end in
  Py.ret table_stats.

(** The inner loop of [analyze_columns], over [table_stats.items()]. *)
Definition count_tables (db_name : string) (table_stats : Py.dict stats)
    (column_dist : gmap Z Z) : Py.IO (gmap Z Z) :=
  Py.for_each (Py.items table_stats)
    (fun '(table_name, stats) column_dist =>
       let column_count := count stats in
       let column_dist := Py.incr column_dist column_count in
       let* _ := Py.print ("数据库 " ++ db_name ++ ", 表 " ++ table_name ++ ": "
                           ++ pretty column_count ++ " 列") in
       let* _ := Py.print ("列名: " ++ Py.join ", " (columns stats)) in
       Py.ret column_dist)
    column_dist.

Definition LF : string := String (ascii_of_nat 10) EmptyString.

Definition analyze_columns (root_dir : string) : Py.IO (gmap Z Z) :=
  let column_dist := ∅ in
  let db_files := get_database_files root_dir in
  let* _ := Py.print ("发现 " ++ pretty (length db_files) ++ " 个数据库文件") in
  let* column_dist :=
    Py.for_each db_files
      (fun db_file column_dist =>
         let* _ := Py.print (LF ++ "处理数据库: " ++ db_file) in
         let db_name := fst (os_path.splitext (os_path.basename db_file)) in
         let* table_stats := get_column_stats db_file in
         count_tables db_name table_stats column_dist)
      column_dist in
  Py.ret column_dist.


(** [min(x) - 0.5] and [max(x) + 0.5]: the arguments of [update_layout] are
    evaluated before the call, [min] first. *)
Definition padded_range (x : list Z) : Py.exception + Q * Q :=
  match Py.min x with
  | inl e => inl e
  | inr lo =>
      match Py.max x with
      | inl e => inl e
      | inr hi => inr ((inject_Z lo - (1 # 2))%Q, (inject_Z hi + (1 # 2))%Q)
      end
  end.

(** [plot_column_distribution]: the exception it ends with, or the name of
    the file written by [write_html] and the figure written to it. *)
Definition plot_column_distribution (column_dist : gmap Z Z)
    : Py.IO (Py.exception + string * plotly.Figure) :=
  let fig := {| plotly.data := []; plotly.layout := None |} in
  let x := Py.sorted (map fst (map_to_list column_dist)) in
  let y := map (fun k => default 0%Z (column_dist !! k)) x in
  let fig := plotly.add_trace fig
               {| plotly.x := x; plotly.y := y; plotly.text := y;
                  plotly.textposition := "auto" |} in
  match padded_range x with
  | inl e => Py.ret (inl e)
  | inr range =>
      let fig := plotly.update_layout fig
                   {| plotly.title_text := "数据库表的列数分布";
                      plotly.title_x := 1 # 2;
                      plotly.title_xanchor := "center";
                      plotly.xaxis_title := "列数";
                      plotly.yaxis_title := "表的数量";
                      plotly.xaxis := {| plotly.dtick := 1;
                                         plotly.tickmode := "linear";
                                         plotly.range := range |};
                      plotly.bargap := 1 # 5 |} in
      let* _ := Py.print (LF ++ "列数分布图已保存为 column_distribution.html") in
      Py.ret (inr ("column_distribution.html", fig))
  end.

Definition print_distribution (dist : gmap Z Z) : Py.IO unit :=
  let* _ := Py.print (LF ++ "列数分布:") in
  let* _ := Py.print (String.concat EmptyString (replicate 40 "-")) in
  Py.for_each (Py.sorted (map fst (map_to_list dist)))
    (fun k _ =>
       Py.print (pretty k ++ " 列的表数量: " ++ pretty (default 0%Z (dist !! k))))
    tt.

Definition main : Py.IO (Py.exception + string * plotly.Figure) :=
  let root_dir := "train" in
  let* column_dist := analyze_columns root_dir in
  let* _ := print_distribution column_dist in
  plot_column_distribution column_dist.

End Script.
End analyze_database_table_column.

(** ** The [csv] module, default ([excel]) dialect *)

Module csv.

#[local] Open Scope list_scope.

Definition delimiter : ascii := ","%char.
Definition quotechar : ascii := "034"%char.
Definition CR : ascii := "013"%char.
Definition LF : ascii := "010"%char.
Definition lineterminator : list ascii := [CR; LF].

(** *** [csv.writer] with [QUOTE_MINIMAL] and [doublequote] *)

(** The characters that make the writer quote a field. *)
Definition special (c : ascii) : bool :=
  Ascii.eqb c delimiter || Ascii.eqb c quotechar
  || existsb (Ascii.eqb c) lineterminator.

(** The field data as copied into the record: every quote character is
    written twice. *)
Fixpoint field_data (field : list ascii) : list ascii :=
  match field with
  | [] => []
  | c :: rest =>
      if Ascii.eqb c quotechar then quotechar :: c :: field_data rest
      else c :: field_data rest
  end.

(** One field as it is appended to the record. *)
Definition join_append (field : list ascii) : list ascii :=
  if existsb special field
  then quotechar :: field_data field ++ [quotechar]
  else field.

(** The fields of a record, a delimiter before every field but the first. *)
Fixpoint join_fields (fields : list (list ascii)) : list ascii :=
  match fields with
  | [] => []
  | [field] => join_append field
  | field :: rest => join_append field ++ delimiter :: join_fields rest
  end.

(** [writer.writerow(row)]: the text handed to the file.  A record that
    would come out empty although it has a field (a single empty field) is
    written as a pair of quotes.  Fields that are not strings reach the
    writer through [str]; the callers below render them before the call. *)
Definition writerow (row : list string) : list ascii :=
  let record := join_fields (map String.list_ascii_of_string row) in
  let record :=
    match row, record with
    | _ :: _, [] => [quotechar; quotechar]
    | _, _ => record
    end in
  record ++ lineterminator.

(** *** [csv.reader]

    The parser states that the default dialect can reach (the escape
    states need an [escapechar]). *)
Inductive state : Type :=
| START_RECORD | START_FIELD | IN_FIELD
| IN_QUOTED_FIELD | QUOTE_IN_QUOTED_FIELD | EAT_CRNL.

#[global] Instance state_eq_dec : EqDecision state.
Proof. solve_decision. Defined.

Record reader : Type := {
  st : state;
  field : list ascii;      (** the field being collected *)
  fields : list string     (** the fields of the record so far *)
}.

(** What the parser is fed: a character of the line, or the end-of-line
    mark that follows every line. *)
Inductive input : Type :=
| Char (c : ascii)
| EOL.

Definition parse_reset : reader :=
  {| st := START_RECORD; field := []; fields := [] |}.

Definition set_state (r : reader) (s : state) : reader :=
  {| st := s; field := field r; fields := fields r |}.

Definition parse_save_field (r : reader) : reader :=
  {| st := st r; field := [];
     fields := fields r ++ [String.string_of_list_ascii (field r)] |}.

(** The field size limit of the reader is not modelled. *)
Definition parse_add_char (r : reader) (c : ascii) : reader :=
  {| st := st r; field := field r ++ [c]; fields := fields r |}.

Definition is_newline (c : ascii) : bool := Ascii.eqb c LF || Ascii.eqb c CR.

Definition after_newline (c : input) : state :=
  match c with EOL => START_RECORD | Char _ => EAT_CRNL end.

(** The [START_FIELD] case, which [START_RECORD] falls through to. *)
Definition start_field (r : reader) (c : input) : reader :=
  match c with
  | EOL => set_state (parse_save_field r) START_RECORD
  | Char a =>
      if is_newline a then set_state (parse_save_field r) EAT_CRNL
      else if Ascii.eqb a quotechar then set_state r IN_QUOTED_FIELD
      else if Ascii.eqb a delimiter then parse_save_field r
      else set_state (parse_add_char r a) IN_FIELD
  end.

(** [parse_process_char]; [None] is the reader's [Error]. *)
Definition parse_process_char (r : reader) (c : input) : option reader :=
  match st r with
  | START_RECORD =>
      match c with
      | EOL => Some r
      | Char a =>
          if is_newline a then Some (set_state r EAT_CRNL)
          else Some (start_field (set_state r START_FIELD) c)
      end
  | START_FIELD => Some (start_field r c)
  | IN_FIELD =>
      match c with
      | EOL => Some (set_state (parse_save_field r) START_RECORD)
      | Char a =>
          if is_newline a then Some (set_state (parse_save_field r) EAT_CRNL)
          else if Ascii.eqb a delimiter
          then Some (set_state (parse_save_field r) START_FIELD)
          else Some (parse_add_char r a)
      end
  | IN_QUOTED_FIELD =>
      match c with
      | EOL => Some r
      | Char a =>
          if Ascii.eqb a quotechar then Some (set_state r QUOTE_IN_QUOTED_FIELD)
          else Some (parse_add_char r a)
      end
  | QUOTE_IN_QUOTED_FIELD =>
      match c with
      | EOL => Some (set_state (parse_save_field r) START_RECORD)
      | Char a =>
          if Ascii.eqb a quotechar
          then Some (set_state (parse_add_char r a) IN_QUOTED_FIELD)
          else if Ascii.eqb a delimiter
          then Some (set_state (parse_save_field r) START_FIELD)
          else if is_newline a
          then Some (set_state (parse_save_field r) EAT_CRNL)
          else Some (set_state (parse_add_char r a) IN_FIELD)
      end
  | EAT_CRNL =>
      match c with
      | EOL => Some (set_state r START_RECORD)
      | Char a => if is_newline a then Some r else None
      end
  end.

(** The lines of a text file opened with [newline='']: a line ends after
    LF, after CR LF, or after a CR that no LF follows, and keeps its
    ending; [line] is the part of the current line already seen. *)
Fixpoint readlines (line : list ascii) (s : list ascii) : list (list ascii) :=
  match s with
  | [] => match line with [] => [] | _ => [line] end
  | c :: rest =>
      if Ascii.eqb c LF then (line ++ [c]) :: readlines [] rest
      else if Ascii.eqb c CR then
        match rest with
        | c' :: rest' =>
            if Ascii.eqb c' LF then (line ++ [c; c']) :: readlines [] rest'
            else (line ++ [c]) :: readlines [] rest
        | [] => [line ++ [c]]
        end
      else readlines (line ++ [c]) rest
  end.

(** One line through the parser: its characters, then the end-of-line mark. *)
Fixpoint parse_line (r : reader) (line : list ascii) : option reader :=
  match line with
  | [] => parse_process_char r EOL
  | c :: rest =>
      match parse_process_char r (Char c) with
      | Some r' => parse_line r' rest
      | None => None
      end
  end.

(** [list(csv.reader(f))]: lines are taken until the parser is back in
    [START_RECORD], which completes a record; when the lines run out
    inside a record, the record is completed as it stands. *)
Fixpoint records (r : reader) (lines : list (list ascii)) : option (list (list string)) :=
  match lines with
  | [] =>
      match field r, st r with
      | _ :: _, _ | _, IN_QUOTED_FIELD => Some [fields (parse_save_field r)]
      | _, _ => Some []
      end
  | line :: rest =>
      match parse_line r line with
      | None => None
      | Some r' =>
          if decide (st r' = START_RECORD)
          then cons (fields r') <$> records parse_reset rest
          else records r' rest
      end
  end.

Definition read (content : list ascii) : option (list (list string)) :=
  records parse_reset (readlines [] content).

End csv.

(** ** analyze_database_tables.py *)

Module analyze_database_tables.
Section Script.

Variable w : World.

Definition is_database_file (file : string) : bool :=
  Py.endswith file ".sqlite" || Py.endswith file ".db".

Definition get_database_files (root_dir : string) : list string :=
  flat_map
    (fun '(root, dirs, files) =>
       flat_map
         (fun file =>
            if is_database_file file then [os_path.join root file] else [])
         files)
    (os_walk w root_dir).

(** The dictionary built for one table, with its five keys. *)
Record table_info : Type := {
  database_name : string;
  table_name : string;
  row_count : Z;
  column_count : Z;
  column_names : list string
}.

(** The [for (table_name,) in tables] loop of [get_table_info]; the list
    [tables_info] exists before the [try] and is appended to in place. *)
Fixpoint table_info_loop (db : Database) (database_name : string)
    (tables : list string) (tables_info : list table_info)
    : list table_info * option string :=
  match tables with
  | [] => (tables_info, None)
  | table_name :: rest =>
      match pragma_table_info db table_name with
      | Raises e => (tables_info, Some e)
      | Rows columns =>
          match select_count db table_name with
          | Raises e => (tables_info, Some e)
          | Rows row_count =>
              table_info_loop db database_name rest
                (tables_info ++
                   [{| database_name := database_name;
                       table_name := table_name;
                       row_count := row_count;
                       column_count := Z.of_nat (length columns);
                       column_names := map col_name columns |}])
          end
      end
  end.

Definition table_info_try (db : Database) (database_name : string)
    (tables_info : list table_info) : list table_info * option string :=
  match connect db with
  | Some e => (tables_info, Some e)
  | None =>
      match select_tables db with
      | Raises e => (tables_info, Some e)
      | Rows tables => table_info_loop db database_name tables tables_info
      end
  end.

Definition error_line (db_path e : string) : string :=
  "处理数据库 " ++ db_path ++ " 时出错: " ++ e.

Definition get_table_info (db_path : string) : Py.IO (list table_info) :=
  let database_name := fst (os_path.splitext (os_path.basename db_path)) in
  let tables_info := [] in
  let '(tables_info, raised) :=
    table_info_try (sqlite w db_path) database_name tables_info in
  let* _ := match raised with
            | Some e => Py.print (error_line db_path e)
            | None => Py.ret tt
            end in
  Py.ret tables_info.

Definition header : list string :=
  ["Database"; "Table"; "Rows"; "Columns"; "Column Names"].

(** The row written for one record. *)
Definition report_row (info : table_info) : list string :=
  [database_name info; table_name info; pretty (row_count info);
   pretty (column_count info); Py.join ", " (column_names info)].

(** [write_csv_report]: the text of the file it leaves at [output_file]
    (opened with [newline=''], so nothing is translated; the characters
    are the bytes of the UTF-8 file). *)
Definition write_csv_report (tables_info : list table_info) (output_file : string)
    : string * list ascii :=
  (output_file,
   csv.writerow header ++ flat_map (fun info => csv.writerow (report_row info)) tables_info)%list.

Definition LF : string := String (ascii_of_nat 10) EmptyString.

Definition main : Py.IO (string * list ascii) :=
  let root_dir := "dev_20240627" in
  let output_file := "database_tables_stats.csv" in
  let db_files := get_database_files root_dir in
  let* _ := Py.print ("发现 " ++ pretty (length db_files) ++ " 个数据库文件") in
  let* all_tables_info :=
    Py.for_each db_files
      (fun db_file all_tables_info =>
         let* _ := Py.print (LF ++ "处理数据库: " ++ db_file) in
         let* tables_info := get_table_info db_file in
         Py.ret (all_tables_info ++ tables_info)%list)
      [] in
  let report := write_csv_report all_tables_info output_file in
  let* _ := Py.print (LF ++ "统计结果已保存到 " ++ output_file) in
  Py.ret report.

End Script.
End analyze_database_tables.

(** ** Vocabulary of the properties *)

(** What a run of the Schema Inspector meets in one database, read off the
    engine's answers in the order in which the inspector asks.  [with_count]
    tells whether the row count is asked for too ([get_table_info]) or not
    ([get_column_stats]). *)
Module Inspection.

(** The exception raised while one table is processed, if any. *)
Definition table_raises (db : Database) (with_count : bool) (t : string)
    : option string :=
  match pragma_table_info db t with
  | Raises e => Some e
  | Rows _ =>
      if with_count
      then match select_count db t with Raises e => Some e | Rows _ => None end
      else None
  end.

(** The exception of the first table of a list that raises. *)
Fixpoint raise_among (db : Database) (with_count : bool) (tables : list string)
    : option string :=
  match tables with
  | [] => None
  | t :: rest =>
      match table_raises db with_count t with
      | Some e => Some e
      | None => raise_among db with_count rest
      end
  end.

(** The first exception of the run: at [connect], at the table listing, or
    at the first table that raises. *)
Definition first_raise (db : Database) (with_count : bool) : option string :=
  match connect db with
  | Some e => Some e
  | None =>
      match select_tables db with
      | Raises e => Some e
      | Rows tables => raise_among db with_count tables
      end
  end.

(** The tables of a list that stand before the first one that raises. *)
Fixpoint before_raise (db : Database) (with_count : bool) (tables : list string)
    : list string :=
  match tables with
  | [] => []
  | t :: rest =>
      match table_raises db with_count t with
      | Some _ => []
      | None => t :: before_raise db with_count rest
      end
  end.

(** The tables of the database that the run gets through. *)
Definition processed_tables (db : Database) (with_count : bool) : list string :=
  match connect db, select_tables db with
  | None, Rows tables => before_raise db with_count tables
  | _, _ => []
  end.

(** All the tables of a database whose inspection raises nothing, none of
    a database whose inspection raises. *)
Definition tables_if_clean (db : Database) (with_count : bool) : list string :=
  match first_raise db with_count, select_tables db with
  | None, Rows tables => tables
  | _, _ => []
  end.

(** The columns and the row count of a table, as the engine reports them. *)
Definition columns_of (db : Database) (t : string) : list column_row :=
  match pragma_table_info db t with Rows columns => columns | Raises _ => [] end.

Definition rows_of (db : Database) (t : string) : Z :=
  match select_count db t with Rows n => n | Raises _ => 0%Z end.

(** What each inspector stores for a table that it gets through. *)
Definition table_stats (db : Database) (t : string)
    : analyze_database_table_column.stats :=
  {| analyze_database_table_column.columns := map col_name (columns_of db t);
     analyze_database_table_column.count := Z.of_nat (length (columns_of db t)) |}.

Definition table_record (db : Database) (database_name t : string)
    : analyze_database_tables.table_info :=
  {| analyze_database_tables.database_name := database_name;
     analyze_database_tables.table_name := t;
     analyze_database_tables.row_count := rows_of db t;
     analyze_database_tables.column_count := Z.of_nat (length (columns_of db t));
     analyze_database_tables.column_names := map col_name (columns_of db t) |}.

(** The logical name of a database file. *)
Definition database_name_of (db_path : string) : string :=
  fst (os_path.splitext (os_path.basename db_path)).

(** The catalog lists every table once. *)
Definition catalog_unique (db : Database) : Prop :=
  match select_tables db with Rows tables => NoDup tables | Raises _ => True end.

End Inspection.

(** The number of files below a directory, at any depth, whose name carries
    one of the two database extensions. *)
Fixpoint database_files_in (d : Dir) : nat :=
  match d with
  | Directory dirs files =>
      length (filter (fun f => analyze_database_tables.is_database_file f = true) files)
      + sum_list (map (fun entry => database_files_in (snd entry)) dirs)
  end.

(** The paths collected from one [(root, dirs, files)] triple of the walk. *)
Definition collect (triple : string * list string * list string) : list string :=
  let '(root, dirs, files) := triple in
  flat_map
    (fun file =>
       if analyze_database_tables.is_database_file file
       then [os_path.join root file] else [])
    files.

(** The column counts that a run of [analyze_columns] meets, in processing
    order: for every discovered file, the counts stored by the inspector. *)
Definition observed_counts (w : World) (root_dir : string) : list Z :=
  flat_map
    (fun db_file =>
       map (fun item => analyze_database_table_column.count (snd item))
           (fst (analyze_database_table_column.get_column_stats w db_file)))
    (analyze_database_table_column.get_database_files w root_dir).

(** The records that a run of the reporting script collects. *)
Definition collected_records (w : World) (root_dir : string)
    : list analyze_database_tables.table_info :=
  flat_map (fun db_file => fst (analyze_database_tables.get_table_info w db_file))
           (analyze_database_tables.get_database_files w root_dir).

(** The column counts of the tables that the inspector of the first script
    gets through, over all discovered files. *)
Definition recorded_counts (w : World) (root_dir : string) : list Z :=
  flat_map
    (fun db_file =>
       map (fun t => Z.of_nat (length (Inspection.columns_of (sqlite w db_file) t)))
           (Inspection.processed_tables (sqlite w db_file) false))
    (analyze_database_table_column.get_database_files w root_dir).

(** The column counts of the tables of the files whose inspection raises
    nothing. *)
Definition clean_counts (w : World) (root_dir : string) : list Z :=
  flat_map
    (fun db_file =>
       map (fun t => Z.of_nat (length (Inspection.columns_of (sqlite w db_file) t)))
           (Inspection.tables_if_clean (sqlite w db_file) false))
    (analyze_database_table_column.get_database_files w root_dir).

(** [sum(d.values())] *)
Definition sum_values (d : gmap Z Z) : Z :=
  map_fold (fun _ v acc => (v + acc)%Z) 0%Z d.

(** How many entries of a list equal [k]. *)
Definition occurrences (k : Z) (l : list Z) : Z :=
  Z.of_nat (length (filter (fun c => c = k) l)).

(** The reader as a single pass over the characters of the file, the lines
    being cut on the way: after a character that ends a line the parser gets
    the end-of-line mark, and a record is complete when that leaves it in
    [START_RECORD].  [pending] tells whether the current line has characters
    already. *)
Module csv_stream.

Import csv.

Definition line_ends (c : ascii) (rest : list ascii) : bool :=
  Ascii.eqb c LF
  || (Ascii.eqb c CR
      && negb (match rest with c' :: _ => Ascii.eqb c' LF | [] => false end)).

(** The parser at the end of a line, [continue] reading what follows. *)
Definition end_of_line (r : reader)
    (continue : reader -> option (list (list string)))
    : option (list (list string)) :=
  match parse_process_char r EOL with
  | None => None
  | Some r' =>
      if decide (st r' = START_RECORD)
      then cons (fields r') <$> continue parse_reset
      else continue r'
  end.

Fixpoint stream (r : reader) (pending : bool) (s : list ascii)
    : option (list (list string)) :=
  match s with
  | [] =>
      if pending then end_of_line r (fun r' => records r' [])
      else records r []
  | c :: rest =>
      match parse_process_char r (Char c) with
      | None => None
      | Some r' =>
          if line_ends c rest
          then end_of_line r' (fun r'' => stream r'' false rest)
          else stream r' true rest
      end
  end.

(** The characters of a line through the parser, without the mark. *)
Fixpoint feed (r : reader) (chars : list ascii) : option reader :=
  match chars with
  | [] => Some r
  | c :: rest =>
      match parse_process_char r (Char c) with
      | Some r' => feed r' rest
      | None => None
      end
  end.

(** The parser has the characters [f] of a written field behind it and
    waits for the delimiter or the line end: [fs] are the fields saved
    before. *)
Definition field_done (f : list ascii) (fs : list string) (r : reader) : Prop :=
  field r = f /\ fields r = fs
  /\ (st r = IN_FIELD \/ st r = QUOTE_IN_QUOTED_FIELD
      \/ (st r = START_FIELD /\ f = [])).

End csv_stream.

(** What a row of the report determines of its record: everything, the
    list of column names in joined form. *)
Definition report_key (info : analyze_database_tables.table_info)
    : string * string * Z * Z * string :=
  (analyze_database_tables.database_name info,
   analyze_database_tables.table_name info,
   analyze_database_tables.row_count info,
   analyze_database_tables.column_count info,
   Py.join ", " (analyze_database_tables.column_names info)).

(** [sorted(d.keys())] *)
Definition sorted_keys (d : gmap Z Z) : list Z :=
  Py.sorted (map fst (map_to_list d)).

(** The keys for which the float arithmetic of the chart's range is exact. *)
Definition keys_exact (d : gmap Z Z) : Prop :=
  map_Forall (fun k _ => (Z.abs k < 2 ^ 52)%Z) d.

(** [sub in s] *)
Definition contains (s sub : string) : Prop :=
  exists before after : string, s = before ++ sub ++ after.

(** The lines printed by the [except] block of the inspectors. *)
Definition is_error_line (line : string) : bool :=
  String.prefix "处理数据库 " line.

(** The files of a list whose inspection raises. *)
Definition raising_files (w : World) (with_count : bool) (files : list string)
    : list string :=
  filter (fun f => is_Some (Inspection.first_raise (sqlite w f) with_count)) files.

(** The lines that the reporting script prints for one file. *)
Definition report_file_lines (w : World) (db_file : string) : list string :=
  (analyze_database_tables.LF ++ "处理数据库: " ++ db_file)
    :: match Inspection.first_raise (sqlite w db_file) true with
       | Some e => [analyze_database_tables.error_line db_file e]
       | None => []
       end.

(** The first and the last line of a run of the reporting script. *)
Definition found_line (n : nat) : string :=
  "发现 " ++ pretty n ++ " 个数据库文件".

Definition saved_line : string :=
  analyze_database_tables.LF ++ "统计结果已保存到 " ++ "database_tables_stats.csv".

(** The two lines that [analyze_columns] prints for a counted table. *)
Definition table_lines (db_name : string)
    (item : string * analyze_database_table_column.stats) : list string :=
  [ "数据库 " ++ db_name ++ ", 表 " ++ fst item ++ ": "
      ++ pretty (analyze_database_table_column.count (snd item)) ++ " 列";
    "列名: " ++ Py.join ", " (analyze_database_table_column.columns (snd item)) ].

(** The line printed before a file is inspected. *)
Definition processing_line (db_file : string) : string :=
  analyze_database_table_column.LF ++ "处理数据库: " ++ db_file.

(** The lines that [analyze_columns] prints for one file. *)
Definition histogram_file_lines (w : World) (db_file : string) : list string :=
  (processing_line db_file
     :: snd (analyze_database_table_column.get_column_stats w db_file)
     ++ flat_map (table_lines (Inspection.database_name_of db_file))
          (fst (analyze_database_table_column.get_column_stats w db_file)))%list.

(** The line that [print_distribution] prints for a key. *)
Definition distribution_line (dist : gmap Z Z) (k : Z) : string :=
  pretty k ++ " 列的表数量: " ++ pretty (default 0%Z (dist !! k)).

(** [sum(l)] *)
Definition sum_Z (l : list Z) : Z := foldr Z.add 0%Z l.

(** Does the character occur in the string? *)
Fixpoint occurs (c : ascii) (s : string) : bool :=
  match s with
  | EmptyString => false
  | String a rest => Ascii.eqb a c || occurs c rest
  end.

(** Is the string made of dots only? *)
Fixpoint all_dots (s : string) : bool :=
  match s with
  | EmptyString => true
  | String a rest => Ascii.eqb a os_path.extsep && all_dots rest
  end.

(** A name as a directory listing gives it: not empty, without a slash. *)
Definition name_ok (n : string) : bool :=
  negb (String.eqb n EmptyString) && negb (occurs "/" n).

(** A tree as a file system has it: in every directory the names are
    proper and no two entries share a name. *)
Fixpoint tree_ok (d : Dir) : bool :=
  match d with
  | Directory dirs files =>
      forallb name_ok (map fst dirs ++ files)
      && bool_decide (NoDup (map fst dirs ++ files))
      && forallb (fun entry => tree_ok (snd entry)) dirs
  end.

(** What [os.path.join] puts before the name it appends. *)
Definition join_base (top : string) : string :=
  if String.eqb top EmptyString || Py.endswith top "/" then top else top ++ "/".

(** The database files of a tree, by their paths relative to its root. *)
Fixpoint relative_paths (d : Dir) : list string :=
  match d with
  | Directory dirs files =>
      filter (fun f => analyze_database_tables.is_database_file f = true) files
      ++ flat_map
           (fun entry =>
              map (fun r => fst entry ++ String "/" r) (relative_paths (snd entry)))
           dirs
  end.

(** The [connect] or the table listing of the database raises. *)
Definition unreadable (db : Database) : Prop :=
  connect db <> None \/ exists e, select_tables db = Raises e.

(** ** Concrete databases and directory trees *)

Module Examples.

Definition column (i : Z) (n : string) : column_row :=
  {| col_cid := i; col_name := n; col_type := "TEXT"; col_notnull := 0;
     col_dflt_value := None; col_pk := 0 |}.

(** One table [users(id, name, email)] with 10 rows. *)
Definition alpha : Database :=
  {| connect := None;
     select_tables := Rows ["users"];
     pragma_table_info := fun _ => Rows [column 0 "id"; column 1 "name"; column 2 "email"];
     select_count := fun _ => Rows 10%Z |}.

(** One table [logs(id, ts)] without rows. *)
Definition beta : Database :=
  {| connect := None;
     select_tables := Rows ["logs"];
     pragma_table_info := fun _ => Rows [column 0 "id"; column 1 "ts"];
     select_count := fun _ => Rows 0%Z |}.

(** A file that is not a database: the first statement raises. *)
Definition corrupt : Database :=
  {| connect := None;
     select_tables := Raises "file is not a database";
     pragma_table_info := fun _ => Raises "file is not a database";
     select_count := fun _ => Raises "file is not a database" |}.

(** Two tables; the name of the second has a blank, so the statement
    [PRAGMA table_info(my table)] is a syntax error. *)
Definition blank : Database :=
  {| connect := None;
     select_tables := Rows ["users"; "my table"];
     pragma_table_info := fun t =>
       if String.eqb t "users"
       then Rows [column 0 "id"; column 1 "name"; column 2 "email"]
       else Raises "near table: syntax error";
     select_count := fun _ => Rows 10%Z |}.

(** One table without any column. *)
Definition hollow : Database :=
  {| connect := None;
     select_tables := Rows ["void"];
     pragma_table_info := fun _ => Rows [];
     select_count := fun _ => Rows 0%Z |}.

(** The records of the two tables above. *)
Definition alpha_users : analyze_database_tables.table_info :=
  {| analyze_database_tables.database_name := "alpha";
     analyze_database_tables.table_name := "users";
     analyze_database_tables.row_count := 10;
     analyze_database_tables.column_count := 3;
     analyze_database_tables.column_names := ["id"; "name"; "email"] |}.

Definition beta_logs : analyze_database_tables.table_info :=
  {| analyze_database_tables.database_name := "beta";
     analyze_database_tables.table_name := "logs";
     analyze_database_tables.row_count := 0;
     analyze_database_tables.column_count := 2;
     analyze_database_tables.column_names := ["id"; "ts"] |}.

(** A tree with database files at two depths among other files. *)
Definition tree : Dir :=
  Directory
    [("sub", Directory [("deep", Directory [] ["blank.sqlite"; "notes.txt"])]
               ["beta.db"; "corrupt.sqlite"; "db.json"])]
    ["alpha.db"; "readme.md"].

Definition site : World :=
  {| listing := fun top =>
       if String.eqb top "train" || String.eqb top "dev_20240627"
       then Some tree else None;
     sqlite := fun db_path =>
       if Py.endswith db_path "alpha.db" then alpha
       else if Py.endswith db_path "beta.db" then beta
       else if Py.endswith db_path "blank.sqlite" then blank
       else if Py.endswith db_path "hollow.db" then hollow
       else corrupt |}.

(** A directory whose only file is the database with the blank in a table
    name. *)
Definition lonely : World :=
  {| listing := fun _ => Some (Directory [] ["blank.sqlite"]);
     sqlite := fun _ => blank |}.

(** The same two databases, listed in either order. *)
Definition two_databases (files : list string) : World :=
  {| listing := fun _ => Some (Directory [] files);
     sqlite := fun db_path =>
       if Py.endswith db_path "alpha.db" then alpha else beta |}.

(** A world without any directory. *)
Definition nowhere : World :=
  {| listing := fun _ => None; sqlite := fun _ => corrupt |}.

(** A single directory with the given files, over the databases of [site]. *)
Definition flat (files : list string) : World :=
  {| listing := fun _ => Some (Directory [] files); sqlite := sqlite site |}.

End Examples.

(** * Properties *)

(** ** Printing and loops *)

Lemma fst_bind {A B} (c : Py.IO A) (k : A -> Py.IO B) :
  fst (Py.bind c k) = fst (k (fst c)).
Proof. reflexivity. Qed.

Lemma snd_bind {A B} (c : Py.IO A) (k : A -> Py.IO B) :
  snd (Py.bind c k) = (snd c ++ snd (k (fst c)))%list.
Proof. reflexivity. Qed.

Lemma fst_for_each {A S} (l : list A) (body : A -> S -> Py.IO S) (s : S) :
  fst (Py.for_each l body s) = foldl (fun s x => fst (body x s)) s l.
Proof.
  revert s. induction l as [|x l IH]; intros s; simpl; [done|].
  by rewrite IH.
Qed.

(** ** Strings *)

Lemma string_length_app (a b : string) :
  String.length (a ++ b) = String.length a + String.length b.
Proof. induction a as [|c a IH]; simpl; [done|]. by rewrite IH. Qed.

Lemma substring_app_skip (a b : string) (k m : nat) :
  String.substring (String.length a + k) m (a ++ b) = String.substring k m b.
Proof. induction a as [|c a IH]; simpl; done. Qed.

Lemma endswith_app (a b suffix : string) :
  Py.endswith b suffix = true -> Py.endswith (a ++ b) suffix = true.
Proof.
  unfold Py.endswith. rewrite string_length_app.
  intros [Hle Heq]%andb_prop. apply Nat.leb_le in Hle.
  apply andb_true_intro. split; [apply Nat.leb_le; lia|].
  replace (String.length a + String.length b - String.length suffix)
    with (String.length a + (String.length b - String.length suffix)) by lia.
  by rewrite substring_app_skip.
Qed.

Lemma endswith_join (root file suffix : string) :
  Py.endswith file suffix = true ->
  Py.endswith (os_path.join root file) suffix = true.
Proof.
  intros H. unfold os_path.join.
  destruct (String.prefix "/" file); [done|].
  destruct (String.eqb root EmptyString || Py.endswith root "/").
  - by apply endswith_app.
  - apply endswith_app. by apply (endswith_app "/").
Qed.

Lemma is_database_file_join (root file : string) :
  analyze_database_tables.is_database_file file = true ->
  analyze_database_tables.is_database_file (os_path.join root file) = true.
Proof.
  unfold analyze_database_tables.is_database_file.
  intros [H|H]%orb_prop; apply orb_true_intro; [left|right];
    by apply endswith_join.
Qed.

(** ** The File Discoverer *)

Lemma Dir_nested_ind (P : Dir -> Prop) :
  (forall dirs files, Forall (fun entry => P (snd entry)) dirs ->
                      P (Directory dirs files)) ->
  forall d, P d.
Proof.
  intros step. fix IH 1. intros [dirs files]. apply step.
  induction dirs as [|[n sub] dirs IHdirs]; constructor; [apply IH | apply IHdirs].
Qed.

Lemma collect_length (root : string) (dirs files : list string) :
  length (collect (root, dirs, files))
  = length (filter (fun f => analyze_database_tables.is_database_file f = true) files).
Proof.
  simpl. induction files as [|f files IH]; [done|].
  simpl. rewrite filter_cons.
  destruct (analyze_database_tables.is_database_file f) eqn:E.
  - rewrite decide_True by done. simpl. by rewrite IH.
  - rewrite decide_False by done. done.
Qed.

Lemma collect_matching (root : string) (dirs files : list string) :
  Forall (fun p => analyze_database_tables.is_database_file p = true)
         (collect (root, dirs, files)).
Proof.
  simpl. induction files as [|f files IH]; [constructor|].
  simpl. destruct (analyze_database_tables.is_database_file f) eqn:E; [|done].
  constructor; [by apply is_database_file_join | done].
Qed.

Lemma walk_dir_length (d : Dir) (top : string) :
  length (flat_map collect (walk_dir top d)) = database_files_in d.
Proof.
  revert top. induction d as [dirs files IH] using Dir_nested_ind. intros top.
  cbn [walk_dir flat_map database_files_in].
  rewrite length_app, collect_length. f_equal.
  induction IH as [|[n sub] dirs Hsub _ IHdirs]; [done|].
  cbn [flat_map map sum_list sum_list_with fst snd].
  rewrite flat_map_app, length_app, Hsub. by rewrite IHdirs.
Qed.

Lemma walk_dir_matching (d : Dir) (top : string) :
  Forall (fun p => analyze_database_tables.is_database_file p = true)
         (flat_map collect (walk_dir top d)).
Proof.
  revert top. induction d as [dirs files IH] using Dir_nested_ind. intros top.
  cbn [walk_dir flat_map]. apply Forall_app. split; [apply collect_matching|].
  induction IH as [|[n sub] dirs Hsub _ IHdirs]; [constructor|].
  cbn [flat_map fst snd]. rewrite flat_map_app. apply Forall_app. by split.
Qed.

Lemma get_database_files_collect (w : World) (root_dir : string) :
  analyze_database_tables.get_database_files w root_dir
  = flat_map collect (os_walk w root_dir).
Proof.
  unfold analyze_database_tables.get_database_files.
  apply flat_map_ext. by intros [[root dirs] files].
Qed.

Lemma collect_elem_of (root : string) (dirs files : list string) (p : string) :
  p ∈ collect (root, dirs, files)
  <-> exists file, file ∈ files
                   /\ analyze_database_tables.is_database_file file = true
                   /\ p = os_path.join root file.
Proof.
  simpl. induction files as [|f files IH]; simpl.
  - split; [by intros ?%elem_of_nil | by intros (? & ?%elem_of_nil & _)].
  - rewrite elem_of_app, IH. split.
    + intros [Hp|(file & Hin & Hdb & ->)].
      * destruct (analyze_database_tables.is_database_file f) eqn:E;
          [|by apply elem_of_nil in Hp].
        apply list_elem_of_singleton in Hp as ->. exists f. split; [by left | done].
      * exists file. split; [by right | done].
    + intros (file & Hin & Hdb & ->). apply elem_of_cons in Hin as [->|Hin].
      * left. rewrite Hdb. by left.
      * right. by exists file.
Qed.

Lemma get_database_files_elem_of (w : World) (root_dir p : string) :
  p ∈ analyze_database_tables.get_database_files w root_dir
  <-> exists root dirs files file,
        (root, dirs, files) ∈ os_walk w root_dir
        /\ file ∈ files
        /\ analyze_database_tables.is_database_file file = true
        /\ p = os_path.join root file.
Proof.
  rewrite get_database_files_collect, list_elem_of_In, in_flat_map. split.
  - intros ([[root dirs] files] & Hin & Hp).
    apply list_elem_of_In, collect_elem_of in Hp as (file & ? & ? & ?).
    exists root, dirs, files, file. by rewrite list_elem_of_In.
  - intros (root & dirs & files & file & Hin & Hfile & Hdb & ->).
    exists (root, dirs, files). split; [by apply list_elem_of_In|].
    apply list_elem_of_In, collect_elem_of. by exists file.
Qed.

(** C6.  The Discoverer returns one path per file, at any depth, whose name
    ends in [.sqlite] or [.db], and nothing else: the number of returned
    paths is the number of such files in the tree, every returned path is
    the directory of the walk joined with the name of such a file, and it
    carries one of the two extensions.  When the root cannot be listed, or
    the tree holds no such file, the result is the empty list. *)
Theorem get_database_files_count (w : World) (root_dir : string) :
  let found := analyze_database_tables.get_database_files w root_dir in
  match listing w root_dir with
  | Some d =>
      length found = database_files_in d
      /\ Forall (fun p => analyze_database_tables.is_database_file p = true) found
      /\ (database_files_in d = 0 -> found = [])
  | None => found = []
  end
  /\ (forall p,
        p ∈ found
        <-> exists root dirs files file,
              (root, dirs, files) ∈ os_walk w root_dir
              /\ file ∈ files
              /\ analyze_database_tables.is_database_file file = true
              /\ p = os_path.join root file)
  /\ analyze_database_table_column.get_database_files w root_dir = found.
Proof.
  cbn zeta. split; [|split; [apply get_database_files_elem_of | done]].
  rewrite get_database_files_collect. unfold os_walk.
  destruct (listing w root_dir) as [d|]; [|done].
  split; [apply walk_dir_length|]. split; [apply walk_dir_matching|].
  intros Hnone. apply length_zero_iff_nil. by rewrite walk_dir_length.
Qed.

Lemma get_database_files_count_witness :
  length (analyze_database_tables.get_database_files Examples.site "train") = 4
  /\ analyze_database_tables.get_database_files Examples.nowhere "train" = [].
Proof.
  split.
  - pose proof (get_database_files_count Examples.site "train") as [H _].
    destruct H as [H _]. exact H.
  - pose proof (get_database_files_count Examples.nowhere "train") as [H _].
    exact H.
Defined.

(** C10.  The two scripts carry the same Discoverer: on every directory
    tree and every root they return the same paths in the same order. *)
Theorem get_database_files_agree (w : World) (root_dir : string) :
  analyze_database_table_column.get_database_files w root_dir
  = analyze_database_tables.get_database_files w root_dir.
Proof. reflexivity. Qed.

(** ** The Schema Inspector *)

Section Inspector.

Import Inspection.

Variable w : World.

Lemma dict_set_fresh {V} (d : Py.dict V) (k : string) (v : V) :
  k ∉ map fst d -> Py.dict_set d k v = (d ++ [(k, v)])%list.
Proof.
  induction d as [|[k' v'] d IH]; intros Hk; [done|].
  simpl in *. apply not_elem_of_cons in Hk as [Hne Hk].
  destruct (String.eqb_spec k' k) as [->|_]; [done|]. by rewrite IH.
Qed.

Lemma dict_set_Forall {V} (P : string * V -> Prop) (d : Py.dict V) k v :
  Forall P d -> P (k, v) -> Forall P (Py.dict_set d k v).
Proof.
  intros Hd Hkv. induction Hd as [|[k' v'] d Hx Hd IH]; simpl.
  - by repeat constructor.
  - destruct (String.eqb k' k); by constructor.
Qed.

Lemma dict_set_elem_of {V} (d : Py.dict V) k v :
  (k, v) ∈ Py.dict_set d k v.
Proof.
  induction d as [|[k' v'] d IH]; simpl; [by left|].
  destruct (String.eqb k' k); [by left | by right].
Qed.

Lemma dict_set_elem_of_other {V} (d : Py.dict V) k v k' v' :
  (k, v) ∈ d -> (k, v) ∈ Py.dict_set d k' v' \/ k = k'.
Proof.
  induction d as [|[k0 v0] d IH]; simpl; intros Hin.
  - by apply elem_of_nil in Hin.
  - apply elem_of_cons in Hin as [Heq|Hin].
    + injection Heq as <- <-.
      destruct (String.eqb_spec k k') as [->|_]; [by right|].
      left. by left.
    + destruct (String.eqb_spec k0 k') as [->|_].
      * left. by right.
      * destruct (IH Hin) as [H|H]; [left; by right | by right].
Qed.

Lemma table_raises_None_false db t :
  table_raises db false t = None ->
  pragma_table_info db t = Rows (columns_of db t).
Proof.
  unfold table_raises, columns_of. by destruct (pragma_table_info db t).
Qed.

Lemma table_raises_None_true db t :
  table_raises db true t = None ->
  pragma_table_info db t = Rows (columns_of db t)
  /\ select_count db t = Rows (rows_of db t).
Proof.
  unfold table_raises, columns_of, rows_of.
  destruct (pragma_table_info db t); [|done]. by destruct (select_count db t).
Qed.

(** The loop of [get_column_stats] stores the tables that stand before the
    first raising one, and ends with the exception of that one. *)
Lemma column_stats_loop_spec db tables acc :
  analyze_database_table_column.column_stats_loop db tables acc
  = (foldl (fun d t => Py.dict_set d t (table_stats db t)) acc
           (before_raise db false tables),
     raise_among db false tables).
Proof.
  revert acc. induction tables as [|t tables IH]; intros acc; [done|].
  simpl. destruct (table_raises db false t) as [e|] eqn:E.
  - unfold table_raises in E. by destruct (pragma_table_info db t); simplify_eq.
  - apply table_raises_None_false in E. rewrite E, IH. done.
Qed.

Lemma table_info_loop_spec db database_name tables acc :
  analyze_database_tables.table_info_loop db database_name tables acc
  = ((acc ++ map (table_record db database_name) (before_raise db true tables))%list,
     raise_among db true tables).
Proof.
  revert acc. induction tables as [|t tables IH]; intros acc.
  - simpl. by rewrite app_nil_r.
  - simpl. destruct (table_raises db true t) as [e|] eqn:E.
    + rewrite app_nil_r. unfold table_raises in E.
      destruct (pragma_table_info db t); [|by simplify_eq].
      by destruct (select_count db t); simplify_eq.
    + apply table_raises_None_true in E as [E1 E2].
      rewrite E1, E2, IH, <- app_assoc. done.
Qed.

Lemma get_column_stats_spec db_path :
  analyze_database_table_column.get_column_stats w db_path
  = (foldl (fun d t => Py.dict_set d t (table_stats (sqlite w db_path) t)) []
           (processed_tables (sqlite w db_path) false),
     match first_raise (sqlite w db_path) false with
     | Some e => [analyze_database_table_column.error_line db_path e]
     | None => []
     end).
Proof.
  unfold analyze_database_table_column.get_column_stats,
    analyze_database_table_column.column_stats_try, processed_tables, first_raise.
  destruct (connect (sqlite w db_path)); [done|].
  destruct (select_tables (sqlite w db_path)) as [tables|e]; [|done].
  rewrite column_stats_loop_spec.
  by destruct (raise_among (sqlite w db_path) false tables).
Qed.

Lemma get_table_info_spec db_path :
  analyze_database_tables.get_table_info w db_path
  = (map (table_record (sqlite w db_path) (database_name_of db_path))
         (processed_tables (sqlite w db_path) true),
     match first_raise (sqlite w db_path) true with
     | Some e => [analyze_database_tables.error_line db_path e]
     | None => []
     end).
Proof.
  unfold analyze_database_tables.get_table_info,
    analyze_database_tables.table_info_try, processed_tables, first_raise.
  destruct (connect (sqlite w db_path)); [done|].
  destruct (select_tables (sqlite w db_path)) as [tables|e]; [|done].
  rewrite table_info_loop_spec.
  by destruct (raise_among (sqlite w db_path) true tables).
Qed.

(** With distinct table names the dictionary is the list of the processed
    tables, in order. *)
Lemma foldl_dict_set_NoDup {V} (f : string -> V) (l : list string) (acc : Py.dict V) :
  NoDup (map fst acc ++ l) ->
  foldl (fun d t => Py.dict_set d t (f t)) acc l
  = (acc ++ map (fun t => (t, f t)) l)%list.
Proof.
  revert acc. induction l as [|t l IH]; intros acc Hnd; simpl.
  - by rewrite app_nil_r.
  - rewrite dict_set_fresh.
    + rewrite IH; [by rewrite <- app_assoc|].
      rewrite map_app. simpl. by rewrite <- app_assoc.
    + apply NoDup_app in Hnd as (_ & Hdis & _).
      intros Hin. apply (Hdis _ Hin). by left.
Qed.

Lemma before_raise_prefix db with_count tables :
  exists rest, tables = (before_raise db with_count tables ++ rest)%list.
Proof.
  induction tables as [|t tables [rest IH]]; [by exists []|].
  simpl. destruct (table_raises db with_count t).
  - by eexists.
  - exists rest. simpl. by f_equal.
Qed.

Lemma before_raise_split db with_count pre t post e :
  Forall (fun t' => table_raises db with_count t' = None) pre ->
  table_raises db with_count t = Some e ->
  before_raise db with_count (pre ++ t :: post) = pre.
Proof.
  intros Hpre Ht. induction Hpre as [|t' pre Ht' _ IH]; simpl.
  - by rewrite Ht.
  - by rewrite Ht', IH.
Qed.

Lemma before_raise_clean db with_count tables :
  raise_among db with_count tables = None ->
  before_raise db with_count tables = tables.
Proof.
  induction tables as [|t tables IH]; [done|]. simpl.
  destruct (table_raises db with_count t); [done|]. intros H. by rewrite IH.
Qed.

Lemma processed_tables_NoDup db with_count :
  catalog_unique db -> NoDup (processed_tables db with_count).
Proof.
  unfold catalog_unique, processed_tables.
  destruct (connect db); [constructor|].
  destruct (select_tables db) as [tables|]; [|constructor].
  destruct (before_raise_prefix db with_count tables) as [rest Heq].
  intros Hnd. rewrite Heq in Hnd. by apply NoDup_app in Hnd as [? _].
Qed.

Lemma get_column_stats_unique db_path :
  catalog_unique (sqlite w db_path) ->
  fst (analyze_database_table_column.get_column_stats w db_path)
  = map (fun t => (t, table_stats (sqlite w db_path) t))
        (processed_tables (sqlite w db_path) false).
Proof.
  intros Hnd. rewrite get_column_stats_spec. simpl.
  rewrite foldl_dict_set_NoDup; [done|].
  simpl. by apply processed_tables_NoDup.
Qed.

End Inspector.

(** ** The Aggregators *)

Lemma foldl_flat_map {A B S} (f : S -> B -> S) (g : A -> list B) (l : list A) (s : S) :
  foldl f s (flat_map g l) = foldl (fun s x => foldl f s (g x)) s l.
Proof.
  revert s. induction l as [|x l IH]; intros s; [done|].
  simpl. by rewrite foldl_app, IH.
Qed.

Lemma count_tables_fold (db_name : string)
    (table_stats : Py.dict analyze_database_table_column.stats) (column_dist : gmap Z Z) :
  fst (analyze_database_table_column.count_tables db_name table_stats column_dist)
  = foldl Py.incr column_dist
      (map (fun item => analyze_database_table_column.count (snd item)) table_stats).
Proof.
  unfold analyze_database_table_column.count_tables, Py.items.
  rewrite fst_for_each. revert column_dist.
  induction table_stats as [|[t st] l IH]; intros column_dist; [done|].
  simpl. by rewrite IH.
Qed.

(** Every discovered file is inspected and its tables are counted, whatever
    happened with the files before it. *)
Lemma analyze_columns_fold (w : World) (root_dir : string) :
  fst (analyze_database_table_column.analyze_columns w root_dir)
  = foldl Py.incr ∅ (observed_counts w root_dir).
Proof.
  unfold analyze_database_table_column.analyze_columns, observed_counts.
  cbv zeta. rewrite !fst_bind. simpl. rewrite fst_for_each, foldl_flat_map.
  generalize (∅ : gmap Z Z).
  induction (analyze_database_table_column.get_database_files w root_dir)
    as [|f files IH]; intros dist; [done|].
  cbn [foldl]. rewrite !fst_bind, count_tables_fold. apply IH.
Qed.

Lemma main_report (w : World) :
  fst (analyze_database_tables.main w)
  = analyze_database_tables.write_csv_report
      (collected_records w "dev_20240627") "database_tables_stats.csv".
Proof.
  unfold analyze_database_tables.main, collected_records.
  cbv zeta. rewrite !fst_bind. cbn [Py.ret fst]. f_equal. rewrite fst_for_each.
  rewrite <- (app_nil_l (flat_map _ _)). generalize (@nil analyze_database_tables.table_info).
  induction (analyze_database_tables.get_database_files w "dev_20240627")
    as [|f files IH]; intros acc.
  - simpl. by rewrite app_nil_r.
  - cbn [foldl flat_map]. rewrite !fst_bind. cbn [Py.ret fst]. rewrite IH. by rewrite <- app_assoc.
Qed.

Lemma error_line_contains (db_path e : string) :
  contains (analyze_database_tables.error_line db_path e) db_path.
Proof. by exists "处理数据库 ", (" 时出错: " ++ e). Qed.

(** ** Exceptions inside the inspector *)

Import Inspection.

Lemma foldl_dict_set_elem_of {V} (f : string -> V) (l : list string)
    (acc : Py.dict V) (t : string) :
  (t, f t) ∈ acc \/ t ∈ l ->
  (t, f t) ∈ foldl (fun d t => Py.dict_set d t (f t)) acc l.
Proof.
  revert acc. induction l as [|t0 l IH]; intros acc [Hacc|Hl]; simpl.
  - done.
  - by apply elem_of_nil in Hl.
  - apply IH. left.
    destruct (dict_set_elem_of_other acc t (f t) t0 (f t0) Hacc) as [H| ->]; [done|].
    apply dict_set_elem_of.
  - apply IH. apply elem_of_cons in Hl as [->|Hl]; [left|by right].
    apply dict_set_elem_of.
Qed.

Lemma foldl_dict_set_Forall {V} (P : string * V -> Prop) (f : string -> V)
    (l : list string) (acc : Py.dict V) :
  Forall P acc -> (forall t, P (t, f t)) ->
  Forall P (foldl (fun d t => Py.dict_set d t (f t)) acc l).
Proof.
  intros Hacc HP. revert acc Hacc. induction l as [|t l IH]; intros acc Hacc; [done|].
  simpl. apply IH. by apply dict_set_Forall.
Qed.

(** C1.  The Schema Inspector always returns.  When [connect] or a statement
    raises, the exception is caught inside the function and exactly one line
    is printed, which contains the path of the file; when nothing raises,
    nothing is printed.  The loops of the callers go on with the next file:
    the histogram is accumulated over every discovered file and the report
    holds the records of every discovered file. *)
Theorem inspector_catches_every_exception (w : World) (db_path : string) :
  let db := sqlite w db_path in
  snd (analyze_database_table_column.get_column_stats w db_path)
  = match first_raise db false with
    | Some e => [analyze_database_table_column.error_line db_path e]
    | None => []
    end
  /\ snd (analyze_database_tables.get_table_info w db_path)
     = match first_raise db true with
       | Some e => [analyze_database_tables.error_line db_path e]
       | None => []
       end
  /\ (forall e, contains (analyze_database_table_column.error_line db_path e) db_path
                /\ contains (analyze_database_tables.error_line db_path e) db_path)
  /\ (forall root_dir,
        fst (analyze_database_table_column.analyze_columns w root_dir)
        = foldl Py.incr ∅ (observed_counts w root_dir))
  /\ fst (analyze_database_tables.main w)
     = analyze_database_tables.write_csv_report
         (collected_records w "dev_20240627") "database_tables_stats.csv".
Proof.
  cbv zeta. rewrite get_column_stats_spec, get_table_info_spec.
  repeat split; try done.
  - apply error_line_contains.
  - apply error_line_contains.
  - apply analyze_columns_fold.
  - apply main_report.
Qed.

(** C8.  For every table that either inspector records, the recorded column
    count is the length of the recorded list of column names.  A table
    whose [PRAGMA table_info] answer has no rows is recorded, with count 0
    and an empty list of names. *)
Theorem column_count_is_number_of_names (w : World) (db_path : string) :
  let db := sqlite w db_path in
  Forall (fun info =>
            analyze_database_tables.column_count info
            = Z.of_nat (length (analyze_database_tables.column_names info)))
         (fst (analyze_database_tables.get_table_info w db_path))
  /\ Forall (fun item =>
               analyze_database_table_column.count (snd item)
               = Z.of_nat (length (analyze_database_table_column.columns (snd item))))
            (fst (analyze_database_table_column.get_column_stats w db_path))
  /\ (forall t,
        t ∈ processed_tables db true -> pragma_table_info db t = Rows [] ->
        exists info,
          info ∈ fst (analyze_database_tables.get_table_info w db_path)
          /\ analyze_database_tables.table_name info = t
          /\ analyze_database_tables.column_count info = 0%Z
          /\ analyze_database_tables.column_names info = [])
  /\ (forall t,
        t ∈ processed_tables db false -> pragma_table_info db t = Rows [] ->
        (t, {| analyze_database_table_column.columns := [];
               analyze_database_table_column.count := 0 |})
        ∈ fst (analyze_database_table_column.get_column_stats w db_path)).
Proof.
  cbv zeta. rewrite get_column_stats_spec, get_table_info_spec. cbn [fst].
  split; [|split; [|split]].
  - apply Forall_forall. intros info [t [-> _]]%list_elem_of_fmap. simpl.
    by rewrite length_map.
  - apply foldl_dict_set_Forall; [constructor|]. intros t. simpl.
    by rewrite length_map.
  - intros t Ht Hnone.
    exists (table_record (sqlite w db_path) (database_name_of db_path) t).
    split; [by apply list_elem_of_fmap_2|].
    unfold table_record, columns_of. rewrite Hnone. done.
  - intros t Ht Hnone.
    pose proof (foldl_dict_set_elem_of (table_stats (sqlite w db_path))
                  (processed_tables (sqlite w db_path) false) [] t (or_intror Ht)) as H.
    unfold table_stats at 1, columns_of in H. by rewrite Hnone in H.
Qed.

Lemma column_count_is_number_of_names_witness :
  exists info,
    info ∈ fst (analyze_database_tables.get_table_info Examples.site "train/hollow.db")
    /\ analyze_database_tables.table_name info = "void"
    /\ analyze_database_tables.column_count info = 0%Z
    /\ analyze_database_tables.column_names info = [].
Proof.
  pose proof (column_count_is_number_of_names Examples.site "train/hollow.db")
    as (_ & _ & H & _).
  apply (H "void"); [|reflexivity].
  vm_compute. left.
Defined.

(** C2, amended.  A file whose [connect] or table listing raises contributes
    no record.  A file that raises while one of its tables is processed
    contributes the records of the tables that stand before that table in
    the listing, and nothing of that table or of the later ones. *)
Theorem failing_file_keeps_earlier_tables (w : World) (db_path : string) :
  let db := sqlite w db_path in
  ((connect db <> None \/ exists e, select_tables db = Raises e) ->
   fst (analyze_database_tables.get_table_info w db_path) = []
   /\ fst (analyze_database_table_column.get_column_stats w db_path) = [])
  /\ (forall pre t post e,
        connect db = None -> select_tables db = Rows (pre ++ t :: post)%list ->
        Forall (fun t' => table_raises db true t' = None) pre ->
        table_raises db true t = Some e ->
        fst (analyze_database_tables.get_table_info w db_path)
        = map (table_record db (database_name_of db_path)) pre)
  /\ (forall pre t post e,
        connect db = None -> select_tables db = Rows (pre ++ t :: post)%list ->
        NoDup pre ->
        Forall (fun t' => table_raises db false t' = None) pre ->
        table_raises db false t = Some e ->
        fst (analyze_database_table_column.get_column_stats w db_path)
        = map (fun t' => (t', table_stats db t')) pre).
Proof.
  cbv zeta. rewrite get_column_stats_spec, get_table_info_spec. cbn [fst].
  unfold processed_tables. split; [|split].
  - intros [Hc|[e He]].
    + by destruct (connect (sqlite w db_path)).
    + rewrite He. by destruct (connect (sqlite w db_path)).
  - intros pre t post e -> -> Hpre Ht.
    by rewrite (before_raise_split _ _ _ _ _ e).
  - intros pre t post e -> -> Hnd Hpre Ht.
    rewrite (before_raise_split _ _ _ _ _ e) by done.
    by rewrite foldl_dict_set_NoDup.
Qed.

Lemma failing_file_keeps_earlier_tables_witness :
  map analyze_database_tables.table_name
      (fst (analyze_database_tables.get_table_info Examples.site "train/blank.sqlite"))
  = ["users"]
  /\ fst (analyze_database_tables.get_table_info Examples.site "train/corrupt.sqlite") = [].
Proof.
  pose proof (failing_file_keeps_earlier_tables Examples.site "train/blank.sqlite")
    as (_ & H & _).
  pose proof (failing_file_keeps_earlier_tables Examples.site "train/corrupt.sqlite")
    as (H0 & _).
  split.
  - rewrite (H ["users"] "my table" [] "near table: syntax error");
      [reflexivity | reflexivity | reflexivity | | reflexivity].
    repeat constructor.
  - apply H0. right. by eexists.
Defined.

(** C2 as stated fails: the inspection of [blank.sqlite] raises at its second
    table, and the file still contributes its first table to the record
    list and to the histogram. *)
Lemma failing_file_contributes_records :
  first_raise (sqlite Examples.lonely "train/blank.sqlite") true
  = Some "near table: syntax error"
  /\ map analyze_database_tables.table_name
       (fst (analyze_database_tables.get_table_info Examples.lonely "train/blank.sqlite"))
     = ["users"]
  /\ map fst (fst (analyze_database_table_column.get_column_stats
                     Examples.lonely "train/blank.sqlite"))
     = ["users"]
  /\ collected_records Examples.lonely "dev_20240627" <> []
  /\ fst (analyze_database_table_column.analyze_columns Examples.lonely "train")
     = {[ 3%Z := 1%Z ]}.
Proof.
  split; [reflexivity|]. split; [reflexivity|]. split; [reflexivity|].
  split; [by vm_compute | by vm_compute].
Qed.

(** ** The histogram *)

Lemma incr_lookup (m : gmap Z Z) (k k' : Z) :
  Py.incr m k !! k'
  = if decide (k = k') then Some (default 0 (m !! k) + 1)%Z else m !! k'.
Proof. unfold Py.incr. by rewrite lookup_insert. Qed.

Lemma occurrences_cons (k c : Z) (l : list Z) :
  occurrences k (c :: l)
  = ((if decide (c = k) then 1 else 0) + occurrences k l)%Z.
Proof.
  unfold occurrences. rewrite filter_cons.
  destruct (decide (c = k)); simpl; lia.
Qed.

Lemma occurrences_nonneg (k : Z) (l : list Z) : (0 <= occurrences k l)%Z.
Proof. unfold occurrences. lia. Qed.

Lemma occurrences_pos (k : Z) (l : list Z) :
  (0 < occurrences k l)%Z <-> k ∈ l.
Proof.
  induction l as [|c l IH].
  - split; [by vm_compute | by intros ?%elem_of_nil].
  - rewrite occurrences_cons, elem_of_cons.
    pose proof (occurrences_nonneg k l).
    destruct (decide (c = k)) as [->|Hne]; [split; [by left | lia]|].
    rewrite Z.add_0_l, IH. split; [by right | by intros [->|?]].
Qed.

Lemma occurrences_Permutation (k : Z) (l l' : list Z) :
  l ≡ₚ l' -> occurrences k l = occurrences k l'.
Proof. intros H. unfold occurrences. by rewrite H. Qed.

(** The value stored at a key after a run of increments. *)
Lemma foldl_incr_lookup (l : list Z) (m : gmap Z Z) (k : Z) :
  foldl Py.incr m l !! k
  = if decide (occurrences k l = 0%Z) then m !! k
    else Some (default 0 (m !! k) + occurrences k l)%Z.
Proof.
  revert m. induction l as [|c l IH]; intros m; [done|].
  simpl. rewrite IH, incr_lookup, occurrences_cons.
  pose proof (occurrences_nonneg k l).
  destruct (decide (c = k)) as [->|Hne].
  - rewrite (decide_False (P := (1 + _ = 0)%Z)) by lia.
    destruct (decide (occurrences k l = 0%Z)) as [->|_]; simpl; f_equal; lia.
  - rewrite Z.add_0_l. done.
Qed.

Lemma sum_values_insert_fresh (m : gmap Z Z) (k v : Z) :
  m !! k = None -> sum_values (<[k := v]> m) = (v + sum_values m)%Z.
Proof.
  intros H. unfold sum_values. rewrite map_fold_insert_L; [done| |done].
  intros. lia.
Qed.

Lemma sum_values_incr (m : gmap Z Z) (k : Z) :
  sum_values (Py.incr m k) = (sum_values m + 1)%Z.
Proof.
  unfold Py.incr. destruct (m !! k) as [v|] eqn:E; simpl.
  - rewrite <- (insert_delete_eq m k (v + 1)%Z).
    rewrite sum_values_insert_fresh by apply lookup_delete_eq.
    rewrite <- (insert_id m k v E) at 2. rewrite <- insert_delete_eq.
    rewrite sum_values_insert_fresh by apply lookup_delete_eq. lia.
  - rewrite sum_values_insert_fresh by done. lia.
Qed.

Lemma sum_values_foldl_incr (l : list Z) (m : gmap Z Z) :
  sum_values (foldl Py.incr m l) = (sum_values m + Z.of_nat (length l))%Z.
Proof.
  revert m. induction l as [|c l IH]; intros m; simpl; [lia|].
  rewrite IH, sum_values_incr. lia.
Qed.

Lemma foldl_incr_Permutation (l l' : list Z) (m : gmap Z Z) :
  l ≡ₚ l' -> foldl Py.incr m l = foldl Py.incr m l'.
Proof.
  intros H. apply map_eq. intros k.
  by rewrite !foldl_incr_lookup, (occurrences_Permutation k l l' H).
Qed.

Lemma processed_tables_clean db with_count :
  first_raise db with_count = None ->
  processed_tables db with_count = tables_if_clean db with_count.
Proof.
  unfold processed_tables, tables_if_clean. intros H. rewrite H.
  unfold first_raise in H. destruct (connect db); [done|].
  destruct (select_tables db) as [tables|]; [|done].
  by apply before_raise_clean.
Qed.

Lemma observed_counts_unique (w : World) (root_dir : string) :
  (forall db_file,
     db_file ∈ analyze_database_table_column.get_database_files w root_dir ->
     catalog_unique (sqlite w db_file)) ->
  observed_counts w root_dir = recorded_counts w root_dir.
Proof.
  unfold observed_counts, recorded_counts.
  induction (analyze_database_table_column.get_database_files w root_dir)
    as [|f files IH]; intros Hnd; [done|].
  simpl. rewrite IH by (intros; apply Hnd; by right). f_equal.
  rewrite get_column_stats_unique by (apply Hnd; by left).
  rewrite map_map. done.
Qed.

(** C3, amended.  When every catalog lists each of its tables once, the
    values of the histogram returned by [analyze_columns] add up to the
    number of tables that the inspector got through: all the tables of a
    file whose inspection raises nothing and, for a file that raises at one
    of its tables, the tables before that one.  The keys are the column
    counts of those tables and the value at a key is the number of those
    tables with that many columns.  When no inspection raises, those tables
    are the tables of all the discovered files. *)
Theorem histogram_counts_recorded_tables (w : World) (root_dir : string) :
  (forall db_file,
     db_file ∈ analyze_database_table_column.get_database_files w root_dir ->
     catalog_unique (sqlite w db_file)) ->
  let column_dist := fst (analyze_database_table_column.analyze_columns w root_dir) in
  sum_values column_dist = Z.of_nat (length (recorded_counts w root_dir))
  /\ (forall k, k ∈ dom column_dist <-> k ∈ recorded_counts w root_dir)
  /\ (forall k v, column_dist !! k = Some v -> v = occurrences k (recorded_counts w root_dir))
  /\ ((forall db_file,
         db_file ∈ analyze_database_table_column.get_database_files w root_dir ->
         first_raise (sqlite w db_file) false = None) ->
      recorded_counts w root_dir = clean_counts w root_dir).
Proof.
  intros Hnd. cbv zeta.
  rewrite analyze_columns_fold, (observed_counts_unique w root_dir Hnd).
  split; [|split; [|split]].
  - rewrite sum_values_foldl_incr. unfold sum_values. by rewrite map_fold_empty.
  - intros k. rewrite elem_of_dom, foldl_incr_lookup, lookup_empty, <- occurrences_pos.
    pose proof (occurrences_nonneg k (recorded_counts w root_dir)).
    destruct (decide _) as [E|E].
    + rewrite E. split; [by intros [? ?] | lia].
    + split; [lia | by eexists].
  - intros k v. rewrite foldl_incr_lookup, lookup_empty.
    destruct (decide _); [done|]. simpl. intros [= <-]. lia.
  - intros Hclean. unfold recorded_counts, clean_counts.
    induction (analyze_database_table_column.get_database_files w root_dir)
      as [|f files IH]; [done|].
    simpl. rewrite IH.
    + by rewrite processed_tables_clean by (apply Hclean; by left).
    + intros; apply Hnd; by right.
    + intros; apply Hclean; by right.
Qed.

Ltac solve_catalog_unique :=
  vm_compute;
  first [exact I | apply (bool_decide_unpack _); vm_compute; exact I].

Lemma histogram_counts_recorded_tables_witness :
  sum_values (fst (analyze_database_table_column.analyze_columns Examples.site "train"))
  = 3%Z.
Proof.
  refine (proj1 (histogram_counts_recorded_tables Examples.site "train" _)).
  apply Forall_forall.
  let files := eval vm_compute in
    (analyze_database_table_column.get_database_files Examples.site "train") in
  change (analyze_database_table_column.get_database_files Examples.site "train")
    with files.
  repeat (constructor; [solve_catalog_unique|]). constructor.
Defined.

(** C3 as stated fails: the only file of the directory raises at its second
    table, so no file is inspected successfully, and the histogram still
    counts one table, under the key 3. *)
Lemma histogram_counts_tables_of_failing_file :
  sum_values (fst (analyze_database_table_column.analyze_columns Examples.lonely "train"))
  = 1%Z
  /\ Z.of_nat (length (clean_counts Examples.lonely "train")) = 0%Z
  /\ 3%Z ∈ dom (fst (analyze_database_table_column.analyze_columns Examples.lonely "train"))
  /\ clean_counts Examples.lonely "train" = [].
Proof.
  split; [reflexivity|]. split; [reflexivity|]. split; [|reflexivity].
  apply elem_of_dom. by exists 1%Z.
Qed.

Lemma get_column_stats_ext (w w' : World) (db_path : string) :
  sqlite w' db_path = sqlite w db_path ->
  analyze_database_table_column.get_column_stats w' db_path
  = analyze_database_table_column.get_column_stats w db_path.
Proof.
  intros H. unfold analyze_database_table_column.get_column_stats. by rewrite H.
Qed.

Lemma raise_among_None db with_count tables :
  raise_among db with_count tables = None
  <-> Forall (fun t => table_raises db with_count t = None) tables.
Proof.
  induction tables as [|t tables IH]; simpl; [by split|].
  destruct (table_raises db with_count t) eqn:E.
  - split; [done|]. intros [? _]%Forall_cons. congruence.
  - rewrite IH. split; [by constructor | by intros [_ ?]%Forall_cons].
Qed.

(** C7.  The histogram depends on the column counts met during the run only
    as a multiset: two runs that meet the same counts in any two orders
    return the same mapping.  In particular the order in which the
    databases are discovered does not matter, and neither does the order in
    which the catalog of a database lists its tables. *)
Theorem histogram_order_independent (w w' : World) (root_dir root_dir' : string) :
  (observed_counts w' root_dir' ≡ₚ observed_counts w root_dir ->
   fst (analyze_database_table_column.analyze_columns w' root_dir')
   = fst (analyze_database_table_column.analyze_columns w root_dir))
  /\ ((forall db_path, sqlite w' db_path = sqlite w db_path) ->
      analyze_database_table_column.get_database_files w' root_dir'
        ≡ₚ analyze_database_table_column.get_database_files w root_dir ->
      fst (analyze_database_table_column.analyze_columns w' root_dir')
      = fst (analyze_database_table_column.analyze_columns w root_dir))
  /\ (forall db_path db_path' tables tables',
        connect (sqlite w db_path) = None ->
        connect (sqlite w' db_path') = None ->
        select_tables (sqlite w db_path) = Rows tables ->
        select_tables (sqlite w' db_path') = Rows tables' ->
        tables' ≡ₚ tables -> NoDup tables ->
        (forall t, pragma_table_info (sqlite w' db_path') t
                   = pragma_table_info (sqlite w db_path) t) ->
        raise_among (sqlite w db_path) false tables = None ->
        map (fun item => analyze_database_table_column.count (snd item))
            (fst (analyze_database_table_column.get_column_stats w' db_path'))
        ≡ₚ map (fun item => analyze_database_table_column.count (snd item))
               (fst (analyze_database_table_column.get_column_stats w db_path))).
Proof.
  split; [|split].
  - intros H. rewrite !analyze_columns_fold. by apply foldl_incr_Permutation.
  - intros Hdb Hfiles. rewrite !analyze_columns_fold.
    apply foldl_incr_Permutation. unfold observed_counts.
    rewrite Hfiles. erewrite flat_map_ext; [done|]. intros f. simpl.
    by rewrite (get_column_stats_ext w w' f).
  - intros db_path db_path' tables tables' Hc Hc' Ht Ht' Hperm Hnd Hpragma Hclean.
    assert (forall t, table_raises (sqlite w' db_path') false t
                      = table_raises (sqlite w db_path) false t) as Hraises.
    { intros t. unfold table_raises. by rewrite Hpragma. }
    assert (raise_among (sqlite w' db_path') false tables' = None) as Hclean'.
    { apply raise_among_None. rewrite Hperm.
      apply raise_among_None in Hclean.
      eapply Forall_impl; [exact Hclean|]. intros t. by rewrite Hraises. }
    rewrite !get_column_stats_unique.
    + unfold processed_tables. rewrite Hc, Hc', Ht, Ht'.
      rewrite !before_raise_clean by done. rewrite !map_map. simpl.
      rewrite Hperm. erewrite map_ext; [done|]. intros t. simpl.
      unfold columns_of. by rewrite Hpragma.
    + unfold catalog_unique. by rewrite Ht.
    + unfold catalog_unique. rewrite Ht'. by rewrite Hperm.
Qed.

Lemma histogram_order_independent_witness :
  fst (analyze_database_table_column.analyze_columns
         (Examples.two_databases ["beta.db"; "alpha.db"]) "train")
  = fst (analyze_database_table_column.analyze_columns
           (Examples.two_databases ["alpha.db"; "beta.db"]) "train").
Proof.
  refine (proj1 (proj2 (histogram_order_independent
                          (Examples.two_databases ["alpha.db"; "beta.db"])
                          (Examples.two_databases ["beta.db"; "alpha.db"])
                          "train" "train")) _ _).
  - reflexivity.
  - vm_compute. apply perm_swap.
Defined.

(** ** The chart *)

Lemma foldl_min_spec (l : list Z) (a : Z) :
  foldl Z.min a l ∈ a :: l /\ Forall (fun k => (foldl Z.min a l <= k)%Z) (a :: l).
Proof.
  revert a. induction l as [|b l IH]; intros a; simpl.
  - split; [by left | by repeat constructor].
  - destruct (IH (Z.min a b)) as [Hin Hle]. split.
    + apply elem_of_cons in Hin as [Heq|Hin]; [|by right; right].
      rewrite Heq. destruct (Z.min_spec a b) as [[_ ->]|[_ ->]]; [by left|right; by left].
    + apply Forall_cons in Hle as [Hab Hl].
      repeat constructor; [lia | lia | done].
Qed.

Lemma foldl_max_spec (l : list Z) (a : Z) :
  foldl Z.max a l ∈ a :: l /\ Forall (fun k => (k <= foldl Z.max a l)%Z) (a :: l).
Proof.
  revert a. induction l as [|b l IH]; intros a; simpl.
  - split; [by left | by repeat constructor].
  - destruct (IH (Z.max a b)) as [Hin Hle]. split.
    + apply elem_of_cons in Hin as [Heq|Hin]; [|by right; right].
      rewrite Heq. destruct (Z.max_spec a b) as [[_ ->]|[_ ->]]; [right; by left|by left].
    + apply Forall_cons in Hle as [Hab Hl].
      repeat constructor; [lia | lia | done].
Qed.

Lemma min_spec (l : list Z) :
  l <> [] ->
  exists lo, Py.min l = inr lo /\ lo ∈ l /\ Forall (fun k => (lo <= k)%Z) l.
Proof.
  destruct l as [|a l]; [done|]. intros _. eexists. split; [done|].
  apply foldl_min_spec.
Qed.

Lemma max_spec (l : list Z) :
  l <> [] ->
  exists hi, Py.max l = inr hi /\ hi ∈ l /\ Forall (fun k => (k <= hi)%Z) l.
Proof.
  destruct l as [|a l]; [done|]. intros _. eexists. split; [done|].
  apply foldl_max_spec.
Qed.

Lemma sorted_keys_elem_of (d : gmap Z Z) (k : Z) :
  k ∈ sorted_keys d <-> k ∈ dom d.
Proof.
  unfold sorted_keys, Py.sorted. rewrite merge_sort_Permutation.
  rewrite elem_of_dom, list_elem_of_fmap. split.
  - intros [[k' v] [-> Hin]]. apply elem_of_map_to_list in Hin. by exists v.
  - intros [v Hv]. exists (k, v). split; [done|]. by apply elem_of_map_to_list.
Qed.

Lemma sorted_keys_NoDup (d : gmap Z Z) : NoDup (sorted_keys d).
Proof.
  unfold sorted_keys, Py.sorted. rewrite merge_sort_Permutation.
  apply NoDup_fst_map_to_list.
Qed.

Lemma sorted_keys_Sorted (d : gmap Z Z) : Sorted Z.le (sorted_keys d).
Proof. apply (Sorted_merge_sort Z.le). Qed.

Lemma sorted_keys_nil (d : gmap Z Z) : sorted_keys d = [] <-> d = ∅.
Proof.
  split.
  - intros H. apply map_empty. intros k.
    apply not_elem_of_dom. rewrite <- sorted_keys_elem_of, H. apply not_elem_of_nil.
  - intros ->. reflexivity.
Qed.

Lemma Qceiling_minus_half (z : Z) : Qceiling (inject_Z z - (1 # 2)) = z.
Proof.
  unfold Qceiling, Qfloor, Qminus, Qplus, Qopp, inject_Z. simpl.
  apply Z.opp_inj. rewrite Z.opp_involutive. symmetry.
  apply (Z.div_unique_pos _ _ _ 1); lia.
Qed.

Lemma Qfloor_plus_half (z : Z) : Qfloor (inject_Z z + (1 # 2)) = z.
Proof.
  unfold Qfloor, Qplus, inject_Z. simpl. symmetry.
  apply (Z.div_unique_pos _ _ _ 1); lia.
Qed.

Lemma filter_all {A} (P : A -> Prop) `{!forall x, Decision (P x)} (l : list A) :
  Forall P l -> filter P l = l.
Proof.
  induction 1 as [|x l Hx _ IH]; [done|].
  rewrite filter_cons_True by done. by rewrite IH.
Qed.

Lemma ticks_linear (lo hi : Z) :
  plotly.ticks {| plotly.dtick := 1; plotly.tickmode := "linear";
                  plotly.range := ((inject_Z lo - (1 # 2))%Q, (inject_Z hi + (1 # 2))%Q) |}
  = seqZ lo (hi - lo + 1).
Proof.
  unfold plotly.ticks. cbn [plotly.range plotly.dtick fst snd].
  rewrite Qceiling_minus_half, Qfloor_plus_half.
  apply filter_all. apply Forall_forall. intros t _. apply Z.rem_1_r.
Qed.

Lemma padded_range_spec (column_dist : gmap Z Z) :
  column_dist <> ∅ ->
  exists lo hi,
    analyze_database_table_column.padded_range (sorted_keys column_dist)
    = inr ((inject_Z lo - (1 # 2))%Q, (inject_Z hi + (1 # 2))%Q)
    /\ lo ∈ dom column_dist /\ hi ∈ dom column_dist
    /\ (forall k, k ∈ dom column_dist -> (lo <= k <= hi)%Z).
Proof.
  intros Hne.
  assert (sorted_keys column_dist <> []) as Hx by by rewrite sorted_keys_nil.
  destruct (min_spec _ Hx) as (lo & Hmin & Hlo & Hlo_le).
  destruct (max_spec _ Hx) as (hi & Hmax & Hhi & Hhi_le).
  exists lo, hi. unfold analyze_database_table_column.padded_range.
  rewrite Hmin, Hmax. split; [done|].
  rewrite <- !sorted_keys_elem_of. split; [done|]. split; [done|].
  intros k Hk%sorted_keys_elem_of.
  rewrite Forall_forall in Hlo_le, Hhi_le. split; auto.
Qed.

Lemma plot_column_distribution_spec (column_dist : gmap Z Z) (range : Q * Q) :
  analyze_database_table_column.padded_range (sorted_keys column_dist) = inr range ->
  let x := sorted_keys column_dist in
  let y := map (fun k => default 0%Z (column_dist !! k)) x in
  analyze_database_table_column.plot_column_distribution column_dist
  = (inr ("column_distribution.html",
          {| plotly.data := [{| plotly.x := x; plotly.y := y; plotly.text := y;
                                plotly.textposition := "auto" |}];
             plotly.layout :=
               Some {| plotly.title_text := "数据库表的列数分布";
                       plotly.title_x := 1 # 2;
                       plotly.title_xanchor := "center";
                       plotly.xaxis_title := "列数";
                       plotly.yaxis_title := "表的数量";
                       plotly.xaxis := {| plotly.dtick := 1;
                                          plotly.tickmode := "linear";
                                          plotly.range := range |};
                       plotly.bargap := 1 # 5 |} |}),
     [analyze_database_table_column.LF ++ "列数分布图已保存为 column_distribution.html"]).
Proof.
  intros H. unfold analyze_database_table_column.plot_column_distribution.
  fold (sorted_keys column_dist). cbv zeta. by rewrite H.
Qed.

(** C4, amended.  For a non-empty histogram the chart has one bar trace: the
    bars stand at the observed column counts, in increasing order and each
    once, the height of a bar is the table count of its key, and the bar
    text is the same list of values.  The range of the x-axis runs from the
    least key minus one half to the greatest key plus one half.  The ticks
    of the axis, one per unit, are all the integers from the least key to
    the greatest key: every observed count is a tick, and so is every
    integer that lies between two observed counts. *)
Theorem chart_of_histogram (column_dist : gmap Z Z) :
  column_dist <> ∅ -> keys_exact column_dist ->
  exists fig bar lo hi,
    fst (analyze_database_table_column.plot_column_distribution column_dist)
    = inr ("column_distribution.html", fig)
    /\ plotly.data fig = [bar]
    /\ plotly.x bar = sorted_keys column_dist
    /\ Sorted Z.le (plotly.x bar) /\ NoDup (plotly.x bar)
    /\ (forall k, k ∈ plotly.x bar <-> k ∈ dom column_dist)
    /\ (forall i k, plotly.x bar !! i = Some k ->
                    plotly.y bar !! i = column_dist !! k)
    /\ plotly.text bar = plotly.y bar
    /\ lo ∈ dom column_dist /\ hi ∈ dom column_dist
    /\ (forall k, k ∈ dom column_dist -> (lo <= k <= hi)%Z)
    /\ (plotly.range ∘ plotly.xaxis) <$> plotly.layout fig
       = Some ((inject_Z lo - (1 # 2))%Q, (inject_Z hi + (1 # 2))%Q)
    /\ plotly.xticks fig = seqZ lo (hi - lo + 1)
    /\ (forall t, t ∈ plotly.xticks fig <-> (lo <= t <= hi)%Z)
    /\ (forall k, k ∈ dom column_dist -> k ∈ plotly.xticks fig).
Proof.
  intros Hne _.
  destruct (padded_range_spec column_dist Hne) as (lo & hi & Hrange & Hlo & Hhi & Hle).
  rewrite (plot_column_distribution_spec column_dist _ Hrange).
  eexists _, _, lo, hi. split; [reflexivity|]. split; [reflexivity|].
  cbn [plotly.x plotly.y plotly.text plotly.layout fmap option_fmap option_map
       compose plotly.xaxis plotly.range].
  unfold plotly.xticks. cbn [plotly.layout plotly.xaxis]. rewrite ticks_linear.
  split; [done|]. split; [apply sorted_keys_Sorted|]. split; [apply sorted_keys_NoDup|].
  split; [apply sorted_keys_elem_of|]. split.
  { intros i k Hi. rewrite list_lookup_fmap, Hi. simpl.
    assert (k ∈ dom column_dist) as [v Hv]%elem_of_dom.
    { apply sorted_keys_elem_of. by eapply list_elem_of_lookup_2. }
    by rewrite Hv. }
  do 6 (split; [done|]).
  assert (forall t, t ∈ seqZ lo (hi - lo + 1) <-> (lo <= t <= hi)%Z) as Hticks.
  { intros t. rewrite elem_of_seqZ. lia. }
  split; [done|]. intros k Hk. apply Hticks. by apply Hle.
Qed.

Lemma chart_of_histogram_witness :
  exists fig,
    fst (analyze_database_table_column.plot_column_distribution
           {[ 3%Z := 2%Z; 5%Z := 1%Z ]})
    = inr ("column_distribution.html", fig).
Proof.
  assert ({[ 3%Z := 2%Z; 5%Z := 1%Z ]} <> (∅ : gmap Z Z)) as Hne.
  { intros H. by apply (f_equal (fun m : gmap Z Z => m !! 3%Z)) in H. }
  assert (keys_exact {[ 3%Z := 2%Z; 5%Z := 1%Z ]}) as Hexact.
  { apply map_Forall_insert_2; [done|].
    apply map_Forall_insert_2; [done|]. apply map_Forall_empty. }
  destruct (chart_of_histogram _ Hne Hexact) as (fig & _ & _ & _ & H & _).
  by exists fig.
Defined.

(** C4 as stated fails: for the histogram [{3: 2, 5: 1}] the bars stand at 3
    and 5, and the axis has the ticks 3, 4 and 5. *)
Lemma ticks_between_observed_counts :
  exists fig,
    fst (analyze_database_table_column.plot_column_distribution
           {[ 3%Z := 2%Z; 5%Z := 1%Z ]})
    = inr ("column_distribution.html", fig)
    /\ sorted_keys {[ 3%Z := 2%Z; 5%Z := 1%Z ]} = [3; 5]%Z
    /\ plotly.xticks fig = [3; 4; 5]%Z.
Proof. eexists. split; [by vm_compute|]. split; by vm_compute. Qed.

Lemma main_plot (w : World) :
  fst (analyze_database_table_column.main w)
  = fst (analyze_database_table_column.plot_column_distribution
           (fst (analyze_database_table_column.analyze_columns w "train"))).
Proof.
  unfold analyze_database_table_column.main. cbv zeta. by rewrite !fst_bind.
Qed.

(** C9.  On the empty distribution [plot_column_distribution] ends with the
    [ValueError] of [min] over an empty sequence, before anything is written
    or printed; hence [main] does not complete when the run over the root
    directory meets no table, in particular when it finds no database file.
    On every non-empty distribution the function completes and writes the
    chart. *)
Theorem plot_fails_on_empty_distribution :
  analyze_database_table_column.plot_column_distribution ∅
  = (inl (Py.ValueError "min() arg is an empty sequence"), [])
  /\ (forall w, observed_counts w "train" = [] ->
                fst (analyze_database_table_column.main w)
                = inl (Py.ValueError "min() arg is an empty sequence"))
  /\ (forall w, analyze_database_table_column.get_database_files w "train" = [] ->
                fst (analyze_database_table_column.main w)
                = inl (Py.ValueError "min() arg is an empty sequence"))
  /\ (forall column_dist : gmap Z Z,
        column_dist <> ∅ -> keys_exact column_dist ->
        exists fig,
          fst (analyze_database_table_column.plot_column_distribution column_dist)
          = inr ("column_distribution.html", fig)).
Proof.
  split; [reflexivity|]. split; [|split].
  - intros w H. by rewrite main_plot, analyze_columns_fold, H.
  - intros w H. rewrite main_plot, analyze_columns_fold.
    unfold observed_counts. by rewrite H.
  - intros column_dist Hne _.
    destruct (padded_range_spec column_dist Hne) as (lo & hi & Hrange & _).
    rewrite (plot_column_distribution_spec column_dist _ Hrange). by eexists.
Qed.

Lemma plot_fails_on_empty_distribution_witness :
  fst (analyze_database_table_column.main Examples.nowhere)
  = inl (Py.ValueError "min() arg is an empty sequence")
  /\ exists fig,
       fst (analyze_database_table_column.plot_column_distribution {[ 2%Z := 1%Z ]})
       = inr ("column_distribution.html", fig).
Proof.
  destruct plot_fails_on_empty_distribution as (_ & _ & Hempty & Hfull).
  split.
  - by apply Hempty.
  - apply Hfull.
    + intros H. by apply (f_equal (fun m : gmap Z Z => m !! 2%Z)) in H.
    + apply map_Forall_insert_2; [done|]. apply map_Forall_empty.
Defined.

(** ** The CSV report *)

Section CsvReader.

Import csv csv_stream.
#[local] Open Scope list_scope.

Lemma feed_app (r : reader) (a b : list ascii) :
  feed r (a ++ b) = feed r a ≫= fun r' => feed r' b.
Proof.
  revert r. induction a as [|c a IH]; intros r; simpl; [done|].
  destruct (parse_process_char r (Char c)); [apply IH | done].
Qed.

Lemma parse_line_feed (r : reader) (a : list ascii) :
  parse_line r a = feed r a ≫= fun r' => parse_process_char r' EOL.
Proof.
  revert r. induction a as [|c a IH]; intros r; simpl; [done|].
  destruct (parse_process_char r (Char c)); [apply IH | done].
Qed.

Lemma records_cons (r : reader) (line : list ascii) (lines : list (list ascii)) :
  records r (line :: lines)
  = feed r line ≫= fun r' => end_of_line r' (fun r'' => records r'' lines).
Proof.
  simpl. rewrite parse_line_feed. unfold end_of_line.
  destruct (feed r line) as [r'|]; simpl; [|done].
  by destruct (parse_process_char r' EOL).
Qed.

Lemma readlines_cons (line : list ascii) (c : ascii) (rest : list ascii) :
  readlines line (c :: rest)
  = if Ascii.eqb c LF then (line ++ [c]) :: readlines [] rest
    else if Ascii.eqb c CR then
      match rest with
      | c' :: rest' =>
          if Ascii.eqb c' LF then (line ++ [c; c']) :: readlines [] rest'
          else (line ++ [c]) :: readlines [] rest
      | [] => [line ++ [c]]
      end
    else readlines (line ++ [c]) rest.
Proof. reflexivity. Qed.

Lemma stream_cons (r : reader) (pending : bool) (c : ascii) (rest : list ascii) :
  stream r pending (c :: rest)
  = parse_process_char r (Char c) ≫= fun r' =>
      if line_ends c rest
      then end_of_line r' (fun r'' => stream r'' false rest)
      else stream r' true rest.
Proof. simpl. by destruct (parse_process_char r (Char c)). Qed.

Lemma records_line_end (r : reader) (line : list ascii) (c : ascii)
    (continue : reader -> option (list (list string))) (lines : list (list ascii)) :
  (forall r', records r' lines = continue r') ->
  records r ((line ++ [c]) :: lines)
  = feed r line ≫= fun r' =>
      parse_process_char r' (Char c) ≫= fun r1 => end_of_line r1 continue.
Proof.
  intros H. rewrite records_cons, feed_app.
  destruct (feed r line) as [r'|]; [|done]. cbn [mbind option_bind feed].
  destruct (parse_process_char r' (Char c)) as [r1|]; [|done].
  cbn [mbind option_bind]. unfold end_of_line.
  destruct (parse_process_char r1 EOL) as [r2|]; [|done]. by rewrite !H.
Qed.

(** Reading line by line is the single pass over the characters. *)
Lemma records_readlines (n : nat) :
  forall (s line : list ascii) (r : reader),
    length s <= n ->
    records r (readlines line s)
    = feed r line ≫= fun r' => stream r' (negb (bool_decide (line = []))) s.
Proof.
  assert (forall (line : list ascii) (r : reader),
            records r (readlines line [])
            = feed r line ≫= fun r' => stream r' (negb (bool_decide (line = []))) [])
    as Hnil.
  { intros [|c line] r; [done|].
    change (readlines (c :: line) []) with [c :: line].
    rewrite records_cons. by destruct (feed r (c :: line)). }
  induction n as [|n IH]; intros s line r Hlen.
  { destruct s; [apply Hnil | simpl in Hlen; lia]. }
  destruct s as [|c rest]; [apply Hnil|].
  simpl in Hlen. rewrite readlines_cons.
  assert (forall r', records r' (readlines [] rest) = stream r' false rest) as Hrest.
  { intros r'. by rewrite IH by lia. }
  destruct (Ascii.eqb c LF) eqn:ELF.
  { rewrite (records_line_end _ _ _ _ _ Hrest).
    destruct (feed r line) as [r'|]; [|done]. cbn [mbind option_bind].
    rewrite stream_cons. unfold line_ends. by rewrite ELF. }
  destruct (Ascii.eqb c CR) eqn:ECR.
  - destruct rest as [|c' rest'].
    + rewrite (records_line_end _ _ _ _ _ Hrest).
      destruct (feed r line) as [r'|]; [|done]. cbn [mbind option_bind].
      rewrite stream_cons. unfold line_ends. by rewrite ELF, ECR.
    + destruct (Ascii.eqb c' LF) eqn:ELF'.
      * assert (forall r', records r' (readlines [] rest') = stream r' false rest')
          as Hrest'.
        { intros r'. rewrite IH by (simpl in Hlen; lia). done. }
        change (line ++ [c; c']) with (line ++ [c] ++ [c']).
        rewrite app_assoc, (records_line_end _ _ _ _ _ Hrest'), feed_app.
        destruct (feed r line) as [r'|]; [|done]. cbn [mbind option_bind feed].
        rewrite stream_cons. unfold line_ends at 1. rewrite ELF, ECR, ELF'.
        cbn [negb andb orb].
        destruct (parse_process_char r' (Char c)) as [r1|]; [|done].
        cbn [mbind option_bind]. rewrite stream_cons.
        unfold line_ends. by rewrite ELF'.
      * rewrite (records_line_end _ _ _ _ _ Hrest).
        destruct (feed r line) as [r'|]; [|done]. cbn [mbind option_bind].
        rewrite stream_cons. unfold line_ends. by rewrite ELF, ECR, ELF'.
  - rewrite IH by lia. rewrite feed_app.
    destruct (feed r line) as [r'|]; [|done]. cbn [mbind option_bind feed].
    rewrite stream_cons. unfold line_ends. rewrite ELF, ECR.
    cbn [negb andb orb].
    destruct (parse_process_char r' (Char c)) as [r1|]; [|done].
    cbn [mbind option_bind]. by destruct line.
Qed.

Lemma read_stream (content : list ascii) :
  read content = stream parse_reset false content.
Proof. unfold read. by rewrite (records_readlines (length content)). Qed.

End CsvReader.

Section CsvRoundTrip.

Import csv csv_stream.
#[local] Open Scope list_scope.

Lemma special_false (c : ascii) :
  special c = false ->
  Ascii.eqb c delimiter = false /\ Ascii.eqb c quotechar = false
  /\ Ascii.eqb c CR = false /\ Ascii.eqb c LF = false.
Proof.
  unfold special, lineterminator. simpl.
  destruct (Ascii.eqb c delimiter), (Ascii.eqb c quotechar),
    (Ascii.eqb c CR), (Ascii.eqb c LF); simpl; intros; by repeat split.
Qed.

Lemma line_ends_false (c : ascii) (rest : list ascii) :
  Ascii.eqb c CR = false -> Ascii.eqb c LF = false -> line_ends c rest = false.
Proof. unfold line_ends. by intros -> ->. Qed.

Lemma is_newline_false (c : ascii) :
  Ascii.eqb c CR = false -> Ascii.eqb c LF = false -> is_newline c = false.
Proof. unfold is_newline. by intros -> ->. Qed.

Lemma stream_step (r r' : reader) (p : bool) (c : ascii) (rest : list ascii) :
  parse_process_char r (Char c) = Some r' ->
  line_ends c rest = false ->
  stream r p (c :: rest) = stream r' true rest.
Proof. intros H1 H2. by rewrite stream_cons, H1; cbn [mbind option_bind]; rewrite H2. Qed.

(** Inside quotes every character but the quote is taken as it is, line
    ends included. *)
Lemma stream_quoted_char (c : ascii) buf fs p rest :
  Ascii.eqb c quotechar = false ->
  exists p',
    stream (Build_reader IN_QUOTED_FIELD buf fs) p (c :: rest)
    = stream (Build_reader IN_QUOTED_FIELD (buf ++ [c]) fs) p' rest.
Proof.
  intros Hq. rewrite stream_cons. cbn [parse_process_char st]. rewrite Hq.
  cbn [mbind option_bind]. destruct (line_ends c rest).
  - by exists false.
  - by exists true.
Qed.

Lemma stream_quoted_body (f : list ascii) fs :
  forall buf p k,
    stream (Build_reader IN_QUOTED_FIELD buf fs) p (field_data f ++ quotechar :: k)
    = stream (Build_reader QUOTE_IN_QUOTED_FIELD (buf ++ f) fs) true k.
Proof.
  induction f as [|c f IH]; intros buf p k.
  - rewrite app_nil_r. cbn [field_data app].
    by apply stream_step.
  - cbn [field_data]. destruct (Ascii.eqb c quotechar) eqn:Hq.
    + apply Ascii.eqb_eq in Hq as ->. cbn [app].
      rewrite (stream_step _ (Build_reader QUOTE_IN_QUOTED_FIELD buf fs))
        by reflexivity.
      rewrite (stream_step _ (Build_reader IN_QUOTED_FIELD (buf ++ [quotechar]) fs))
        by reflexivity.
      rewrite IH. by rewrite <- app_assoc.
    + cbn [app].
      destruct (stream_quoted_char c buf fs p (field_data f ++ quotechar :: k) Hq)
        as [p' ->].
      rewrite IH. by rewrite <- app_assoc.
Qed.

Lemma stream_unquoted_body (f : list ascii) fs :
  forall buf k,
    existsb special f = false ->
    stream (Build_reader IN_FIELD buf fs) true (f ++ k)
    = stream (Build_reader IN_FIELD (buf ++ f) fs) true k.
Proof.
  induction f as [|c f IH]; intros buf k Hf.
  - by rewrite app_nil_r.
  - simpl in Hf. apply orb_false_elim in Hf as [Hc Hf].
    destruct (special_false c Hc) as (Hd & Hq & Hcr & Hlf).
    cbn [app].
    rewrite (stream_step _ (Build_reader IN_FIELD (buf ++ [c]) fs)).
    + rewrite IH by done. by rewrite <- app_assoc.
    + cbn [parse_process_char st].
      by rewrite (is_newline_false c Hcr Hlf), Hd.
    + by apply line_ends_false.
Qed.

(** A written field, read from the start of a field. *)
Lemma stream_field (f : list ascii) fs p k :
  exists r p',
    field_done f fs r
    /\ stream (Build_reader START_FIELD [] fs) p (join_append f ++ k) = stream r p' k.
Proof.
  unfold join_append. destruct (existsb special f) eqn:Hf.
  - exists (Build_reader QUOTE_IN_QUOTED_FIELD f fs), true.
    split; [unfold field_done; simpl; tauto|].
    cbn [app]. rewrite <- app_assoc. cbn [app].
    rewrite (stream_step _ (Build_reader IN_QUOTED_FIELD [] fs)) by reflexivity.
    by rewrite stream_quoted_body.
  - destruct f as [|c f].
    + exists (Build_reader START_FIELD [] fs), p.
      split; [unfold field_done; simpl; tauto | done].
    + exists (Build_reader IN_FIELD (c :: f) fs), true.
      split; [unfold field_done; simpl; tauto|].
      simpl in Hf. apply orb_false_elim in Hf as [Hc Hf].
      destruct (special_false c Hc) as (Hd & Hq & Hcr & Hlf).
      cbn [app].
      rewrite (stream_step _ (Build_reader IN_FIELD [c] fs)).
      * by rewrite stream_unquoted_body.
      * cbn [parse_process_char st start_field].
        by rewrite (is_newline_false c Hcr Hlf), Hq, Hd.
      * by apply line_ends_false.
Qed.

Lemma stream_delimiter (f : list ascii) fs r p k :
  field_done f fs r ->
  stream r p (delimiter :: k)
  = stream (Build_reader START_FIELD [] (fs ++ [String.string_of_list_ascii f])) true k.
Proof.
  destruct r as [s buf fs']. intros (Hf & Hfs & Hst).
  cbn [st field fields] in Hf, Hfs, Hst. subst buf fs'.
  destruct Hst as [-> | [-> | [-> ->]]]; reflexivity.
Qed.

Lemma stream_line_end (f : list ascii) fs r p k :
  field_done f fs r ->
  stream r p (CR :: LF :: k)
  = cons (fs ++ [String.string_of_list_ascii f]) <$> stream parse_reset false k.
Proof.
  destruct r as [s buf fs']. intros (Hf & Hfs & Hst).
  cbn [st field fields] in Hf, Hfs, Hst. subst buf fs'.
  destruct Hst as [-> | [-> | [-> ->]]]; reflexivity.
Qed.

(** The fields of a record, read from the start of a field. *)
Lemma stream_fields (fs0 : list (list ascii)) :
  forall f fs p k,
    stream (Build_reader START_FIELD [] fs) p
           (join_fields (f :: fs0) ++ CR :: LF :: k)
    = cons (fs ++ map String.string_of_list_ascii (f :: fs0))
        <$> stream parse_reset false k.
Proof.
  induction fs0 as [|f' fs0 IH]; intros f fs p k.
  - cbn [join_fields].
    destruct (stream_field f fs p (CR :: LF :: k)) as (r & p' & Hdone & ->).
    by rewrite (stream_line_end f fs r p' k Hdone).
  - change (join_fields (f :: f' :: fs0))
      with (join_append f ++ delimiter :: join_fields (f' :: fs0)).
    rewrite <- app_assoc. cbn [app].
    destruct (stream_field f fs p
                (delimiter :: join_fields (f' :: fs0) ++ CR :: LF :: k))
      as (r & p' & Hdone & ->).
    rewrite (stream_delimiter f fs r p' _ Hdone), IH.
    cbn [map]. by rewrite <- app_assoc.
Qed.

Lemma stream_start_record (c : ascii) p rest :
  is_newline c = false ->
  stream parse_reset p (c :: rest)
  = stream (Build_reader START_FIELD [] []) p (c :: rest).
Proof.
  intros Hc. rewrite !stream_cons. unfold parse_reset.
  cbn [parse_process_char st]. by rewrite Hc.
Qed.

Lemma join_append_head (f : list ascii) (c : ascii) (rest : list ascii) :
  join_append f = c :: rest -> is_newline c = false.
Proof.
  unfold join_append. destruct (existsb special f) eqn:Hf.
  - by intros [= <- _].
  - intros ->. simpl in Hf. apply orb_false_elim in Hf as [Hc _].
    destruct (special_false c Hc) as (_ & _ & Hcr & Hlf).
    by apply is_newline_false.
Qed.

Lemma join_fields_head (f : list ascii) (fs0 : list (list ascii)) :
  match join_fields (f :: fs0) with
  | [] => f = [] /\ fs0 = []
  | c :: _ => is_newline c = false
  end.
Proof.
  destruct fs0 as [|f' fs0].
  - cbn [join_fields]. destruct (join_append f) as [|c rest] eqn:E.
    + unfold join_append in E. by destruct (existsb special f).
    + by eapply join_append_head.
  - change (join_fields (f :: f' :: fs0))
      with (join_append f ++ delimiter :: join_fields (f' :: fs0)).
    destruct (join_append f) as [|c rest] eqn:E; [done|].
    by eapply join_append_head.
Qed.

(** A written row is read back as it was, and the reader is at the start
    of the next record. *)
Lemma stream_writerow (row : list string) p k :
  stream parse_reset p (writerow row ++ k)
  = cons row <$> stream parse_reset false k.
Proof.
  unfold writerow. destruct row as [|s row]; [reflexivity|].
  cbn [map].
  pose proof (join_fields_head (String.list_ascii_of_string s)
                (map String.list_ascii_of_string row)) as Hhead.
  assert (map String.string_of_list_ascii
            (map String.list_ascii_of_string (s :: row)) = s :: row) as Hrow.
  { rewrite map_map. erewrite map_ext; [apply map_id|].
    intros a. apply String.string_of_list_ascii_of_string. }
  destruct (join_fields _) as [|c rest] eqn:E.
  - destruct Hhead as [Hs Hnil].
    apply map_eq_nil in Hnil as ->.
    assert (s = EmptyString) as ->.
    { rewrite <- (String.string_of_list_ascii_of_string s). by rewrite Hs. }
    reflexivity.
  - rewrite <- app_assoc. cbn [app].
    rewrite stream_start_record by done.
    replace (c :: rest ++ lineterminator ++ k)
      with (join_fields (String.list_ascii_of_string s
                           :: map String.list_ascii_of_string row)
              ++ CR :: LF :: k) by by rewrite E.
    rewrite stream_fields. cbn [map app] in Hrow |- *. by rewrite Hrow.
Qed.

Lemma stream_rows (rows : list (list string)) :
  stream parse_reset false (flat_map writerow rows) = Some rows.
Proof.
  induction rows as [|row rows IH]; [done|].
  cbn [flat_map]. by rewrite stream_writerow, IH.
Qed.

(** What [csv.writer] writes, [csv.reader] reads back. *)
Lemma read_written (rows : list (list string)) :
  read (flat_map writerow rows) = Some rows.
Proof. rewrite read_stream. apply stream_rows. Qed.

End CsvRoundTrip.

Lemma flat_map_map {A B C} (f : B -> list C) (g : A -> B) (l : list A) :
  flat_map f (map g l) = flat_map (fun a => f (g a)) l.
Proof. induction l as [|a l IH]; simpl; [done|]. by rewrite IH. Qed.

Lemma write_csv_report_rows
    (tables_info : list analyze_database_tables.table_info) (output_file : string) :
  snd (analyze_database_tables.write_csv_report tables_info output_file)
  = flat_map csv.writerow
      (analyze_database_tables.header
         :: map analyze_database_tables.report_row tables_info).
Proof.
  unfold analyze_database_tables.write_csv_report. cbn [snd flat_map].
  by rewrite flat_map_map.
Qed.

Lemma report_row_key (info info' : analyze_database_tables.table_info) :
  analyze_database_tables.report_row info' = analyze_database_tables.report_row info ->
  report_key info' = report_key info.
Proof.
  unfold analyze_database_tables.report_row, report_key.
  intros [= -> -> Hrows Hcols ->].
  apply (inj pretty) in Hrows. apply (inj pretty) in Hcols. by rewrite Hrows, Hcols.
Qed.

(** C5.  [write_csv_report] names the file it was given and writes the
    header row followed by one row per record, in the order of the list;
    the row of a record holds its database name, its table name, its row
    count, its column count and its column names joined with a comma and a
    blank.  Reading the file back with [csv.reader] gives exactly these
    rows, in order, so two record lists with the same file agree row by row
    on those five values.  The same holds for the report that [main]
    writes for the records it collected. *)
Theorem csv_report_round_trip
    (tables_info : list analyze_database_tables.table_info) (output_file : string) :
  let report := analyze_database_tables.write_csv_report tables_info output_file in
  fst report = output_file
  /\ snd report
     = (csv.writerow ["Database"; "Table"; "Rows"; "Columns"; "Column Names"]
        ++ flat_map
             (fun info =>
                csv.writerow
                  [analyze_database_tables.database_name info;
                   analyze_database_tables.table_name info;
                   pretty (analyze_database_tables.row_count info);
                   pretty (analyze_database_tables.column_count info);
                   Py.join ", " (analyze_database_tables.column_names info)])
             tables_info)%list
  /\ csv.read (snd report)
     = Some (["Database"; "Table"; "Rows"; "Columns"; "Column Names"]
               :: map (fun info =>
                         [analyze_database_tables.database_name info;
                          analyze_database_tables.table_name info;
                          pretty (analyze_database_tables.row_count info);
                          pretty (analyze_database_tables.column_count info);
                          Py.join ", " (analyze_database_tables.column_names info)])
                      tables_info)
  /\ (forall tables_info' output_file',
        snd (analyze_database_tables.write_csv_report tables_info' output_file')
        = snd report ->
        map report_key tables_info' = map report_key tables_info)
  /\ (forall w,
        csv.read (snd (fst (analyze_database_tables.main w)))
        = Some (analyze_database_tables.header
                  :: map analyze_database_tables.report_row
                         (collected_records w "dev_20240627"))).
Proof.
  cbv zeta. split; [done|]. split; [done|]. split; [|split].
  - rewrite write_csv_report_rows. apply read_written.
  - intros tables_info' output_file' Heq.
    apply (f_equal csv.read) in Heq.
    rewrite !write_csv_report_rows, !read_written in Heq.
    injection Heq as Heq. revert tables_info' Heq.
    induction tables_info as [|info l IH]; intros [|info' l'] Heq; try done.
    simpl in Heq. injection Heq as Hrow Hrest.
    simpl. f_equal; [|by apply IH].
    apply report_row_key. unfold analyze_database_tables.report_row. congruence.
  - intros w. rewrite main_report, write_csv_report_rows. apply read_written.
Qed.

Lemma csv_report_round_trip_witness :
  csv.read (snd (analyze_database_tables.write_csv_report
                   [Examples.alpha_users; Examples.beta_logs] "report.csv"))
  = Some [["Database"; "Table"; "Rows"; "Columns"; "Column Names"];
          ["alpha"; "users"; "10"; "3"; "id, name, email"];
          ["beta"; "logs"; "0"; "2"; "id, ts"]]
  /\ map report_key [Examples.alpha_users; Examples.beta_logs]
     = [("alpha", "users", 10%Z, 3%Z, "id, name, email");
        ("beta", "logs", 0%Z, 2%Z, "id, ts")].
Proof.
  pose proof (csv_report_round_trip [Examples.alpha_users; Examples.beta_logs]
                "report.csv") as (_ & _ & Hread & Hkey & _).
  split.
  - exact Hread.
  - apply (Hkey [Examples.alpha_users; Examples.beta_logs] "copy.csv"). reflexivity.
Defined.

(** The text of the report for the two records. *)
Example report_text :
  String.string_of_list_ascii
    (snd (analyze_database_tables.write_csv_report
            [Examples.alpha_users; Examples.beta_logs] "report.csv"))
  = String.concat EmptyString
      ["Database,Table,Rows,Columns,Column Names"; String csv.CR (String csv.LF EmptyString);
       "alpha,users,10,3,"; String csv.quotechar "id, name, email";
       String csv.quotechar (String csv.CR (String csv.LF EmptyString));
       "beta,logs,0,2,"; String csv.quotechar "id, ts";
       String csv.quotechar (String csv.CR (String csv.LF EmptyString))].
Proof. reflexivity. Qed.

Lemma snd_for_each {A S} (g : A -> list string) (l : list A)
    (body : A -> S -> Py.IO S) (s : S) :
  (forall x s, snd (body x s) = g x) ->
  snd (Py.for_each l body s) = flat_map g l.
Proof.
  intros Hg. revert s. induction l as [|x l IH]; intros s; [done|].
  cbn [Py.for_each flat_map]. by rewrite snd_bind, Hg, IH.
Qed.

Lemma main_log (w : World) :
  snd (analyze_database_tables.main w)
  = (found_line (length (analyze_database_tables.get_database_files w "dev_20240627"))
       :: flat_map (report_file_lines w)
            (analyze_database_tables.get_database_files w "dev_20240627")
       ++ [saved_line])%list.
Proof.
  unfold analyze_database_tables.main. cbv zeta.
  rewrite !snd_bind. cbn [Py.print Py.ret snd fst].
  rewrite (snd_for_each (report_file_lines w)).
  - by rewrite app_nil_r.
  - intros f acc. rewrite !snd_bind. cbn [Py.print Py.ret snd fst].
    rewrite get_table_info_spec. cbn [snd]. by rewrite app_nil_r.
Qed.

Lemma processing_line_not_error (f : string) :
  is_error_line (analyze_database_tables.LF ++ "处理数据库: " ++ f) = false.
Proof. reflexivity. Qed.

Lemma error_line_is_error (f e : string) :
  is_error_line (analyze_database_tables.error_line f e) = true.
Proof.
  unfold is_error_line, analyze_database_tables.error_line. simpl.
  by destruct (f ++ _).
Qed.

Lemma found_line_not_error (n : nat) : is_error_line (found_line n) = false.
Proof. reflexivity. Qed.

Lemma error_lines_of_files (w : World) (files : list string) :
  filter (fun line => is_error_line line = true) (flat_map (report_file_lines w) files)
  = flat_map (fun f => match first_raise (sqlite w f) true with
                       | Some e => [analyze_database_tables.error_line f e]
                       | None => []
                       end) files.
Proof.
  induction files as [|f files IH]; [done|].
  cbn [flat_map]. rewrite filter_app, IH. f_equal.
  unfold report_file_lines.
  rewrite filter_cons_False by by rewrite processing_line_not_error.
  destruct (first_raise (sqlite w f) true); [|done].
  by rewrite filter_cons_True by apply error_line_is_error.
Qed.

Lemma flat_map_option_length (w : World) (files : list string) (g : string -> string -> string) :
  length (flat_map (fun f => match first_raise (sqlite w f) true with
                             | Some e => [g f e]
                             | None => []
                             end) files)
  = length (raising_files w true files).
Proof.
  unfold raising_files. induction files as [|f files IH]; [done|].
  cbn [flat_map]. rewrite length_app, IH, filter_cons.
  destruct (first_raise (sqlite w f) true) eqn:E.
  - by rewrite decide_True by by eexists.
  - rewrite decide_False; [done|]. by intros [? ?].
Qed.

Lemma report_file_lines_length (w : World) (files : list string) :
  length (flat_map (report_file_lines w) files)
  = length files + length (raising_files w true files).
Proof.
  unfold raising_files. induction files as [|f l IH]; [done|].
  cbn [flat_map]. rewrite length_app, IH, filter_cons. unfold report_file_lines.
  destruct (first_raise (sqlite w f) true) eqn:E.
  - rewrite decide_True by by eexists. simpl. lia.
  - rewrite decide_False by (by intros [? ?]). simpl. lia.
Qed.

(** X1.  The output of a run of the reporting script has one error line
    for every discovered file whose inspection raises, and no other: the
    lines printed are the count line, for every file its processing line
    followed by its error line when it raises, and the closing line. *)
Theorem report_run_logs_one_error_per_raising_file (w : World) :
  let files := analyze_database_tables.get_database_files w "dev_20240627" in
  let log := snd (analyze_database_tables.main w) in
  length (filter (fun line => is_error_line line = true) log)
  = length (raising_files w true files)
  /\ length log = 2 + length files + length (raising_files w true files)
  /\ (forall f e, f ∈ files -> first_raise (sqlite w f) true = Some e ->
                  analyze_database_tables.error_line f e ∈ log)
  /\ (forall line, line ∈ log -> is_error_line line = true ->
                   exists f e, f ∈ files /\ first_raise (sqlite w f) true = Some e
                               /\ line = analyze_database_tables.error_line f e).
Proof.
  cbv zeta. rewrite main_log.
  set (files := analyze_database_tables.get_database_files w "dev_20240627").
  assert (forall line,
            line ∈ flat_map (fun f => match first_raise (sqlite w f) true with
                                      | Some e => [analyze_database_tables.error_line f e]
                                      | None => []
                                      end) files
            <-> exists f e, f ∈ files /\ first_raise (sqlite w f) true = Some e
                            /\ line = analyze_database_tables.error_line f e) as Hmem.
  { intros line. rewrite list_elem_of_In, in_flat_map. split.
    - intros (f & Hf & Hline). destruct (first_raise (sqlite w f) true) as [e|] eqn:E;
        [|done]. destruct Hline as [<-|[]]. exists f, e. by rewrite list_elem_of_In.
    - intros (f & e & Hf & He & ->). exists f. rewrite He.
      split; [by apply list_elem_of_In | by left]. }
  split; [|split; [|split]].
  - rewrite filter_cons_False by by rewrite found_line_not_error.
    rewrite filter_app, error_lines_of_files, length_app.
    rewrite filter_cons_False by by vm_compute.
    rewrite filter_nil. simpl. rewrite Nat.add_0_r. apply flat_map_option_length.
  - cbn [length]. rewrite length_app. cbn [length].
    rewrite report_file_lines_length. lia.
  - intros f e Hf He. right. apply elem_of_app. left.
    rewrite <- (error_lines_of_files w files) in Hmem.
    assert (analyze_database_tables.error_line f e
            ∈ filter (fun line => is_error_line line = true)
                     (flat_map (report_file_lines w) files)) as Hin.
    { apply Hmem. by exists f, e. }
    by apply list_elem_of_filter in Hin as [_ ?].
  - intros line Hin Herr. apply Hmem. rewrite <- error_lines_of_files.
    apply list_elem_of_filter. split; [done|].
    apply elem_of_cons in Hin as [->|Hin];
      [by rewrite found_line_not_error in Herr|].
    apply elem_of_app in Hin as [Hin|Hin]; [done|].
    apply list_elem_of_singleton in Hin as ->. by vm_compute in Herr.
Qed.

Lemma count_tables_log (db_name : string)
    (table_stats : Py.dict analyze_database_table_column.stats) (column_dist : gmap Z Z) :
  snd (analyze_database_table_column.count_tables db_name table_stats column_dist)
  = flat_map (table_lines db_name) table_stats.
Proof.
  unfold analyze_database_table_column.count_tables, Py.items.
  apply snd_for_each. by intros [t st] dist.
Qed.

Lemma analyze_columns_log (w : World) (root_dir : string) :
  snd (analyze_database_table_column.analyze_columns w root_dir)
  = found_line (length (analyze_database_table_column.get_database_files w root_dir))
      :: flat_map (histogram_file_lines w)
           (analyze_database_table_column.get_database_files w root_dir).
Proof.
  unfold analyze_database_table_column.analyze_columns. cbv zeta.
  rewrite !snd_bind. cbn [Py.print Py.ret snd fst].
  rewrite (snd_for_each (histogram_file_lines w)).
  - by rewrite app_nil_r.
  - intros f dist. rewrite !snd_bind. cbn [Py.print snd fst].
    by rewrite count_tables_log.
Qed.

Lemma table_lines_not_error (db_name : string)
    (l : Py.dict analyze_database_table_column.stats) :
  filter (fun line => is_error_line line = true) (flat_map (table_lines db_name) l) = [].
Proof.
  induction l as [|item l IH]; [done|].
  cbn [flat_map table_lines app].
  rewrite !filter_cons_False by by vm_compute. done.
Qed.

Lemma histogram_file_lines_errors (w : World) (f : string) :
  filter (fun line => is_error_line line = true) (histogram_file_lines w f)
  = match first_raise (sqlite w f) false with
    | Some e => [analyze_database_table_column.error_line f e]
    | None => []
    end.
Proof.
  unfold histogram_file_lines.
  rewrite filter_cons_False by by vm_compute.
  rewrite filter_app, table_lines_not_error, app_nil_r, get_column_stats_spec.
  cbn [snd]. destruct (first_raise (sqlite w f) false); [|done].
  by rewrite filter_cons_True by apply error_line_is_error.
Qed.

(** X2.  The output of [analyze_columns] has one error line for every
    discovered file whose inspection raises and two lines for every table
    counted, besides the count line and one processing line per file. *)
Theorem histogram_run_log (w : World) (root_dir : string) :
  let files := analyze_database_table_column.get_database_files w root_dir in
  let log := snd (analyze_database_table_column.analyze_columns w root_dir) in
  length (filter (fun line => is_error_line line = true) log)
  = length (raising_files w false files)
  /\ length log
     = 1 + length files + length (raising_files w false files)
       + 2 * length (observed_counts w root_dir).
Proof.
  cbv zeta. rewrite analyze_columns_log. unfold observed_counts, raising_files.
  rewrite filter_cons_False by by rewrite found_line_not_error.
  cbn [length].
  induction (analyze_database_table_column.get_database_files w root_dir)
    as [|f files [IH1 IH2]]; [done|].
  cbn [flat_map]. rewrite filter_app, !length_app, histogram_file_lines_errors, IH1.
  rewrite filter_cons. split.
  - destruct (first_raise (sqlite w f) false) eqn:E.
    + by rewrite decide_True by by eexists.
    + rewrite decide_False; [done|]. by intros [? ?].
  - injection IH2 as IH2. rewrite IH2. unfold histogram_file_lines.
    cbn [length]. rewrite length_app, get_column_stats_spec. cbn [fst snd].
    rewrite length_map.
    assert (forall n (l : Py.dict analyze_database_table_column.stats),
              length (flat_map (table_lines n) l) = 2 * length l) as ->.
    { intros n l. induction l as [|x l IHl]; [done|]. cbn [flat_map table_lines].
      rewrite length_app, IHl. simpl. lia. }
    destruct (first_raise (sqlite w f) false) eqn:E.
    + rewrite decide_True by by eexists. simpl. lia.
    + rewrite decide_False by (by intros [? ?]). simpl. lia.
Qed.

Lemma dict_set_keys {V} (d : Py.dict V) (k : string) (v : V) :
  map fst (Py.dict_set d k v)
  = if bool_decide (k ∈ map fst d) then map fst d else (map fst d ++ [k])%list.
Proof.
  induction d as [|[k' v'] d IH]; [done|].
  cbn [Py.dict_set map fst]. destruct (String.eqb_spec k' k) as [->|Hne].
  - rewrite bool_decide_eq_true_2 by by left. done.
  - cbn [map fst]. rewrite IH. destruct (bool_decide (k ∈ map fst d)) eqn:E.
    + apply bool_decide_eq_true_1 in E.
      by rewrite bool_decide_eq_true_2 by by right.
    + apply bool_decide_eq_false_1 in E.
      rewrite bool_decide_eq_false_2; [done|].
      intros [?|?]%elem_of_cons; [by subst | done].
Qed.

Lemma foldl_dict_set_keys {V} (f : string -> V) (l : list string) (acc : Py.dict V) :
  NoDup (map fst acc) ->
  NoDup (map fst (foldl (fun d t => Py.dict_set d t (f t)) acc l))
  /\ (forall t, t ∈ map fst (foldl (fun d t => Py.dict_set d t (f t)) acc l)
                <-> t ∈ map fst acc \/ t ∈ l)
  /\ length (foldl (fun d t => Py.dict_set d t (f t)) acc l) <= length acc + length l.
Proof.
  revert acc. induction l as [|t0 l IH]; intros acc Hnd.
  - split; [done|]. split; [|simpl; lia]. intros t. rewrite elem_of_nil. tauto.
  - cbn [foldl].
    assert (NoDup (map fst (Py.dict_set acc t0 (f t0)))
            /\ (forall t, t ∈ map fst (Py.dict_set acc t0 (f t0))
                          <-> t ∈ map fst acc \/ t = t0)
            /\ length (Py.dict_set acc t0 (f t0)) <= S (length acc))
      as (Hnd' & Hin' & Hlen').
    { rewrite <- (length_map fst (Py.dict_set acc t0 (f t0))), <- (length_map fst acc).
      rewrite dict_set_keys. destruct (bool_decide (t0 ∈ map fst acc)) eqn:E.
      - apply bool_decide_eq_true_1 in E. split; [done|]. split; [|lia].
        intros t. split; [tauto | by intros [?| ->]].
      - apply bool_decide_eq_false_1 in E. split.
        + apply NoDup_app. split; [done|]. split; [|apply NoDup_singleton].
          intros x Hx ->%list_elem_of_singleton. done.
        + split; [|rewrite length_app; simpl; lia].
          intros t. by rewrite elem_of_app, list_elem_of_singleton. }
    destruct (IH _ Hnd') as (H1 & H2 & H3). split; [done|]. split.
    + intros t. rewrite H2, Hin', elem_of_cons. tauto.
    + simpl. lia.
Qed.

Lemma get_column_stats_values (w : World) (db_path t : string)
    (stats : analyze_database_table_column.stats) :
  (t, stats) ∈ fst (analyze_database_table_column.get_column_stats w db_path) ->
  stats = Inspection.table_stats (sqlite w db_path) t.
Proof.
  rewrite get_column_stats_spec. cbn [fst]. intros Hin.
  pose proof (foldl_dict_set_Forall
                (fun item => snd item = Inspection.table_stats (sqlite w db_path) (fst item))
                (Inspection.table_stats (sqlite w db_path))
                (processed_tables (sqlite w db_path) false) []
                (Forall_nil_2 _) (fun t => eq_refl)) as HF.
  rewrite Forall_forall in HF. by apply (HF (t, stats)).
Qed.

(** X3.  The dictionary returned by [get_column_stats] has one entry per
    table name that the run got through, also when the catalog lists a name
    more than once: its keys are distinct, they are the names of the
    processed tables, and the value at a name is what [PRAGMA table_info]
    answers for that name. *)
Theorem column_stats_keys (w : World) (db_path : string) :
  let table_stats := fst (analyze_database_table_column.get_column_stats w db_path) in
  NoDup (map fst table_stats)
  /\ (forall t, t ∈ map fst table_stats
                <-> t ∈ processed_tables (sqlite w db_path) false)
  /\ length table_stats <= length (processed_tables (sqlite w db_path) false)
  /\ (forall t stats,
        (t, stats) ∈ table_stats ->
        stats = Inspection.table_stats (sqlite w db_path) t).
Proof.
  cbv zeta. split; [|split; [|split; [|apply get_column_stats_values]]].
  all: rewrite get_column_stats_spec; cbn [fst].
  all: destruct (foldl_dict_set_keys (Inspection.table_stats (sqlite w db_path))
                   (processed_tables (sqlite w db_path) false) [])
         as (H1 & H2 & H3); [constructor|].
  - done.
  - intros t. rewrite H2. simpl. rewrite elem_of_nil. tauto.
  - done.
Qed.

Lemma table_raises_true_None (db : Database) (t : string) :
  table_raises db true t = None -> table_raises db false t = None.
Proof. unfold table_raises. by destruct (pragma_table_info db t). Qed.

Lemma before_raise_true_prefix (db : Database) (tables : list string) :
  before_raise db true tables `prefix_of` before_raise db false tables.
Proof.
  induction tables as [|t tables IH]; [done|]. cbn [before_raise].
  destruct (table_raises db true t) eqn:E; [apply prefix_nil|].
  rewrite (table_raises_true_None db t E). by apply prefix_cons.
Qed.

Lemma processed_tables_true_prefix (db : Database) :
  processed_tables db true `prefix_of` processed_tables db false.
Proof.
  unfold processed_tables. destruct (connect db); [done|].
  destruct (select_tables db); [apply before_raise_true_prefix | done].
Qed.

Lemma first_raise_true_None (db : Database) :
  first_raise db true = None -> first_raise db false = None.
Proof.
  unfold first_raise. destruct (connect db); [done|].
  destruct (select_tables db) as [tables|]; [|done].
  rewrite !raise_among_None. intros H. eapply Forall_impl; [exact H|].
  apply table_raises_true_None.
Qed.

(** X4.  On a database whose catalog lists each table once, the two
    inspectors agree: the tables recorded by [get_table_info], with their
    column counts, are an initial part of those recorded by
    [get_column_stats] (the row count is one more statement that can
    raise), and they are the same when the reporting inspection raises
    nothing. *)
Theorem report_tables_prefix_of_histogram_tables (w : World) (db_path : string) :
  let db := sqlite w db_path in
  let reported :=
    map (fun info => (analyze_database_tables.table_name info,
                      analyze_database_tables.column_count info))
        (fst (analyze_database_tables.get_table_info w db_path)) in
  let counted :=
    map (fun item => (fst item, analyze_database_table_column.count (snd item)))
        (fst (analyze_database_table_column.get_column_stats w db_path)) in
  catalog_unique db ->
  reported `prefix_of` counted
  /\ (first_raise db true = None -> reported = counted).
Proof.
  cbv zeta. intros Hnd.
  rewrite get_column_stats_unique by done. rewrite get_table_info_spec. cbn [fst].
  rewrite !map_map. cbn [fst snd]. split.
  - destruct (processed_tables_true_prefix (sqlite w db_path)) as [rest ->].
    rewrite map_app. by eexists.
  - intros Hclean.
    rewrite !processed_tables_clean by auto using first_raise_true_None.
    unfold tables_if_clean. rewrite Hclean, (first_raise_true_None _ Hclean). done.
Qed.

Lemma report_tables_prefix_of_histogram_tables_witness :
  map (fun info => (analyze_database_tables.table_name info,
                    analyze_database_tables.column_count info))
      (fst (analyze_database_tables.get_table_info Examples.site "train/alpha.db"))
  = map (fun item => (fst item, analyze_database_table_column.count (snd item)))
        (fst (analyze_database_table_column.get_column_stats Examples.site "train/alpha.db")).
Proof.
  refine (proj2 (report_tables_prefix_of_histogram_tables Examples.site "train/alpha.db" _) _).
  - solve_catalog_unique.
  - reflexivity.
Defined.

(** X5.  Whatever the databases answer, every key of the histogram returned
    by [analyze_columns] is non-negative, every value is at least one, the
    values add up to the number of dictionary entries met during the run,
    and the histogram is empty exactly when no entry was met. *)
Theorem histogram_keys_and_values (w : World) (root_dir : string) :
  let column_dist := fst (analyze_database_table_column.analyze_columns w root_dir) in
  (forall k v, column_dist !! k = Some v -> (0 <= k)%Z /\ (1 <= v)%Z)
  /\ sum_values column_dist = Z.of_nat (length (observed_counts w root_dir))
  /\ (column_dist = ∅ <-> observed_counts w root_dir = []).
Proof.
  cbv zeta. rewrite analyze_columns_fold.
  assert (Forall (fun k => (0 <= k)%Z) (observed_counts w root_dir)) as Hnonneg.
  { unfold observed_counts. apply Forall_forall. intros k Hk.
    apply list_elem_of_In, in_flat_map in Hk as (f & _ & Hk).
    apply list_elem_of_In, list_elem_of_fmap in Hk as ([t st] & -> & Hin).
    rewrite (get_column_stats_values w f t st Hin). simpl. lia. }
  split; [|split].
  - intros k v. rewrite foldl_incr_lookup, lookup_empty.
    pose proof (occurrences_nonneg k (observed_counts w root_dir)).
    destruct (decide _) as [|Hocc]; [done|]. intros [= <-]. simpl. split; [|lia].
    rewrite Forall_forall in Hnonneg. apply Hnonneg, occurrences_pos. lia.
  - rewrite sum_values_foldl_incr. unfold sum_values. by rewrite map_fold_empty.
  - split.
    + intros H. apply (f_equal sum_values) in H.
      rewrite sum_values_foldl_incr in H. unfold sum_values in H.
      rewrite !map_fold_empty in H. apply length_zero_iff_nil. lia.
    + by intros ->.
Qed.

Lemma sorted_keys_length (d : gmap Z Z) : length (sorted_keys d) = size d.
Proof.
  unfold sorted_keys, Py.sorted.
  by rewrite merge_sort_Permutation, length_map, length_map_to_list.
Qed.

Lemma sorted_keys_increasing (d : gmap Z Z) : StronglySorted Z.lt (sorted_keys d).
Proof.
  pose proof (sorted_keys_NoDup d) as Hnd.
  assert (StronglySorted Z.le (sorted_keys d)) as Hs
    by apply (StronglySorted_merge_sort Z.le).
  induction Hs as [|k l Hs IH Hle]; [constructor|].
  apply NoDup_cons in Hnd as [Hk Hnd]. constructor; [by apply IH|].
  rewrite Forall_forall in Hle |- *. intros k' Hk'.
  specialize (Hle k' Hk'). assert (k <> k') by by intros ->. lia.
Qed.

Lemma flat_map_singleton {A B} (g : A -> B) (l : list A) :
  flat_map (fun a => [g a]) l = map g l.
Proof. induction l as [|a l IH]; simpl; [done|]. by rewrite IH. Qed.

Lemma print_distribution_log (dist : gmap Z Z) :
  snd (analyze_database_table_column.print_distribution dist)
  = (analyze_database_table_column.LF ++ "列数分布:")
      :: String.concat EmptyString (replicate 40 "-")
      :: map (distribution_line dist) (sorted_keys dist).
Proof.
  unfold analyze_database_table_column.print_distribution.
  rewrite !snd_bind. cbn [Py.print snd fst].
  rewrite (snd_for_each (fun k => [distribution_line dist k])) by done.
  fold (sorted_keys dist). by rewrite flat_map_singleton.
Qed.

(** X6.  [print_distribution] prints two heading lines and then one line per
    key of the distribution, in strictly increasing order of the keys, each
    with the value stored at its key; on the empty distribution it prints
    the two heading lines only. *)
Theorem print_distribution_lines (dist : gmap Z Z) :
  let log := snd (analyze_database_table_column.print_distribution dist) in
  length log = 2 + size dist
  /\ StronglySorted Z.lt (sorted_keys dist)
  /\ (forall k, k ∈ sorted_keys dist <-> k ∈ dom dist)
  /\ (forall i k,
        sorted_keys dist !! i = Some k ->
        exists v, dist !! k = Some v
                  /\ log !! (2 + i) = Some (pretty k ++ " 列的表数量: " ++ pretty v)).
Proof.
  cbv zeta. rewrite print_distribution_log.
  split; [|split; [apply sorted_keys_increasing|split; [apply sorted_keys_elem_of|]]].
  - cbn [length]. by rewrite length_map, sorted_keys_length.
  - intros i k Hi.
    assert (k ∈ dom dist) as [v Hv]%elem_of_dom.
    { apply sorted_keys_elem_of. by eapply list_elem_of_lookup_2. }
    exists v. split; [done|].
    assert (forall (a b : string) l, (a :: b :: l) !! (2 + i) = l !! i) as -> by done.
    rewrite list_lookup_fmap, Hi. simpl.
    unfold distribution_line. by rewrite Hv.
Qed.

Lemma sum_Z_Permutation (l l' : list Z) : l ≡ₚ l' -> sum_Z l = sum_Z l'.
Proof.
  unfold sum_Z. induction 1; simpl; lia.
Qed.

Lemma sum_values_map_to_list (d : gmap Z Z) :
  sum_values d = sum_Z (map snd (map_to_list d)).
Proof.
  unfold sum_values, sum_Z. rewrite map_fold_foldr.
  induction (map_to_list d) as [|[k v] l IH]; [done|]. simpl. by rewrite IH.
Qed.

Lemma bar_heights_sum (d : gmap Z Z) :
  sum_Z (map (fun k => default 0%Z (d !! k)) (sorted_keys d)) = sum_values d.
Proof.
  rewrite sum_values_map_to_list. apply sum_Z_Permutation.
  unfold sorted_keys, Py.sorted. rewrite merge_sort_Permutation, map_map.
  erewrite map_ext_in; [done|]. intros [k v] Hin.
  apply list_elem_of_In, elem_of_map_to_list in Hin. simpl. by rewrite Hin.
Qed.

(** X7.  When the run over the root directory meets at least one table,
    [main] completes and the chart it writes has one bar per key of the
    histogram; the heights of the bars add up to the number of dictionary
    entries counted during the run. *)
Theorem chart_bars_add_up (w : World) :
  observed_counts w "train" <> [] ->
  keys_exact (fst (analyze_database_table_column.analyze_columns w "train")) ->
  exists fig bar,
    fst (analyze_database_table_column.main w) = inr ("column_distribution.html", fig)
    /\ plotly.data fig = [bar]
    /\ length (plotly.x bar)
       = size (fst (analyze_database_table_column.analyze_columns w "train"))
    /\ length (plotly.y bar) = length (plotly.x bar)
    /\ sum_Z (plotly.y bar) = Z.of_nat (length (observed_counts w "train")).
Proof.
  intros Hne _. rewrite main_plot.
  set (column_dist := fst (analyze_database_table_column.analyze_columns w "train")).
  assert (column_dist <> ∅) as Hdist.
  { unfold column_dist. rewrite analyze_columns_fold. intros H.
    apply (f_equal sum_values) in H. rewrite sum_values_foldl_incr in H.
    unfold sum_values in H. rewrite !map_fold_empty in H.
    apply Hne, length_zero_iff_nil. lia. }
  destruct (padded_range_spec column_dist Hdist) as (lo & hi & Hrange & _).
  rewrite (plot_column_distribution_spec column_dist _ Hrange).
  eexists _, _. split; [reflexivity|]. split; [reflexivity|].
  cbn [plotly.x plotly.y]. rewrite length_map, sorted_keys_length, bar_heights_sum.
  split; [done|]. split; [done|].
  unfold column_dist. rewrite analyze_columns_fold, sum_values_foldl_incr.
  unfold sum_values. by rewrite map_fold_empty.
Qed.

Lemma chart_bars_add_up_witness :
  exists fig bar,
    fst (analyze_database_table_column.main Examples.site)
    = inr ("column_distribution.html", fig)
    /\ plotly.data fig = [bar]
    /\ sum_Z (plotly.y bar) = 3%Z.
Proof.
  destruct (chart_bars_add_up Examples.site) as (fig & bar & H1 & H2 & _ & _ & H3).
  - by vm_compute.
  - replace (fst (analyze_database_table_column.analyze_columns Examples.site "train"))
      with (<[3%Z := 2%Z]> (<[2%Z := 1%Z]> (∅ : gmap Z Z))) by by vm_compute.
    apply map_Forall_insert_2; [done|].
    apply map_Forall_insert_2; [done|]. apply map_Forall_empty.
  - by exists fig, bar.
Defined.

Lemma rfind_from_app (c : ascii) (a b : string) (i last : Z) :
  Py.rfind_from c (a ++ b) i last
  = Py.rfind_from c b (i + Z.of_nat (String.length a)) (Py.rfind_from c a i last).
Proof.
  revert i last. induction a as [|x a IH]; intros i last; simpl.
  - by rewrite Z.add_0_r.
  - rewrite IH. f_equal. lia.
Qed.

Lemma rfind_from_absent (c : ascii) (s : string) (i last : Z) :
  occurs c s = false -> Py.rfind_from c s i last = last.
Proof.
  revert i last. induction s as [|x s IH]; intros i last; simpl; [done|].
  intros [-> Hs]%orb_false_elim. by apply IH.
Qed.

Lemma rfind_last (c : ascii) (a b : string) :
  occurs c b = false ->
  Py.rfind c (a ++ String c b) = Z.of_nat (String.length a).
Proof.
  intros Hb. unfold Py.rfind. rewrite rfind_from_app. simpl.
  rewrite Ascii.eqb_refl. by rewrite rfind_from_absent.
Qed.

Lemma rfind_absent (c : ascii) (s : string) :
  occurs c s = false -> Py.rfind c s = (-1)%Z.
Proof. apply rfind_from_absent. Qed.

Lemma substring_all (s : string) : String.substring 0 (String.length s) s = s.
Proof. induction s as [|c s IH]; simpl; [done|]. by rewrite IH. Qed.

Lemma substring_prefix (a b : string) :
  String.substring 0 (String.length a) (a ++ b) = a.
Proof.
  induction a as [|c a IH]; simpl; [by destruct b|]. by rewrite IH.
Qed.

Lemma slice_from_app (a b : string) :
  Py.slice_from (Z.of_nat (String.length a)) (a ++ b) = b.
Proof.
  unfold Py.slice_from. rewrite Nat2Z.id, string_length_app.
  replace (String.length a + String.length b - String.length a)
    with (String.length b) by lia.
  rewrite <- (Nat.add_0_r (String.length a)) at 1.
  by rewrite substring_app_skip, substring_all.
Qed.

Lemma slice_to_app (a b : string) :
  Py.slice_to (Z.of_nat (String.length a)) (a ++ b) = a.
Proof. unfold Py.slice_to. rewrite Nat2Z.id. apply substring_prefix. Qed.

Lemma string_app_cons (x : ascii) (a b : string) :
  String x a ++ b = String x (a ++ b).
Proof. reflexivity. Qed.

Lemma string_app_assoc (a b c : string) : (a ++ b) ++ c = a ++ b ++ c.
Proof.
  induction a as [|x a IH]; [done|]. rewrite !string_app_cons. by rewrite IH.
Qed.

Lemma substring_split (s : string) (n : nat) :
  n <= String.length s ->
  s = String.substring 0 n s ++ String.substring n (String.length s - n) s.
Proof.
  revert n. induction s as [|c s IH]; intros [|n] Hn; simpl in *; try lia.
  - done.
  - by rewrite substring_all.
  - rewrite string_app_cons. f_equal. apply IH. lia.
Qed.

Lemma endswith_inv (s suffix : string) :
  Py.endswith s suffix = true -> exists before, s = before ++ suffix.
Proof.
  unfold Py.endswith. intros [Hle Heq]%andb_prop.
  apply Nat.leb_le in Hle. apply String.eqb_eq in Heq.
  exists (String.substring 0 (String.length s - String.length suffix) s).
  pose proof (substring_split s (String.length s - String.length suffix)) as H.
  replace (String.length s - (String.length s - String.length suffix))
    with (String.length suffix) in H by lia.
  rewrite Heq in H. apply H. lia.
Qed.

Lemma prefix_slash_occurs (s : string) :
  String.prefix "/" s = true -> occurs "/" s = true.
Proof.
  destruct s as [|c s]; [done|]. intros H.
  change (String.prefix "/" (String c s))
    with (if ascii_dec "/" c then String.prefix EmptyString s else false) in H.
  destruct (ascii_dec "/" c) as [<-|]; [reflexivity | done].
Qed.

(** The last component of a joined path is the name that was joined. *)
Lemma basename_app_slash (before file : string) :
  occurs "/" file = false ->
  os_path.basename (before ++ String "/" file) = file.
Proof.
  intros Hfile. unfold os_path.basename, os_path.sep.
  rewrite (rfind_last "/" before file Hfile).
  replace (before ++ String "/" file) with ((before ++ "/") ++ file)
    by by rewrite string_app_assoc.
  replace (Z.of_nat (String.length before) + 1)%Z
    with (Z.of_nat (String.length (before ++ "/")))
    by (rewrite string_length_app; simpl; lia).
  apply slice_from_app.
Qed.

Lemma basename_plain (file : string) :
  occurs "/" file = false -> os_path.basename file = file.
Proof.
  intros Hfile. unfold os_path.basename, os_path.sep.
  rewrite (rfind_absent _ _ Hfile).
  apply (slice_from_app EmptyString file).
Qed.

Lemma basename_join (root file : string) :
  occurs "/" file = false ->
  os_path.basename (os_path.join root file) = file.
Proof.
  intros Hfile. unfold os_path.join.
  destruct (String.prefix "/" file) eqn:Hp.
  { apply prefix_slash_occurs in Hp. congruence. }
  destruct (String.eqb_spec root EmptyString) as [->|Hroot]; cbn [orb].
  - by apply basename_plain.
  - destruct (Py.endswith root "/") eqn:Hend.
    + apply endswith_inv in Hend as [before ->].
      rewrite string_app_assoc. by apply basename_app_slash.
    + by apply basename_app_slash.
Qed.

Lemma occurs_app (c : ascii) (a b : string) :
  occurs c (a ++ b) = occurs c a || occurs c b.
Proof.
  induction a as [|x a IH]; [done|]. rewrite string_app_cons. simpl.
  by rewrite IH, orb_assoc.
Qed.

Lemma get_app_here (a b : string) (c : ascii) :
  String.get (String.length a) (a ++ String c b) = Some c.
Proof. induction a as [|x a IH]; [done|]. rewrite string_app_cons. apply IH. Qed.

Lemma has_non_dot_app (stem : string) :
  forall before rest,
    os_path.has_non_dot (before ++ stem ++ rest) (String.length before)
                        (String.length stem)
    = negb (all_dots stem).
Proof.
  induction stem as [|c stem IH]; intros before rest; [done|].
  rewrite string_app_cons. cbn [String.length os_path.has_non_dot all_dots].
  rewrite get_app_here. destruct (Ascii.eqb c os_path.extsep); [|done].
  replace (before ++ String c (stem ++ rest))
    with ((before ++ String c EmptyString) ++ stem ++ rest)
    by by rewrite string_app_assoc.
  replace (S (String.length before))
    with (String.length (before ++ String c EmptyString))
    by (rewrite string_length_app; simpl; lia).
  apply IH.
Qed.

Lemma has_non_dot_stem (stem rest : string) :
  os_path.has_non_dot (stem ++ rest) 0 (String.length stem) = negb (all_dots stem).
Proof. exact (has_non_dot_app stem EmptyString rest). Qed.

Lemma splitext_stem (stem e : string) :
  occurs "/" stem = false -> occurs "/" e = false -> occurs "." e = false ->
  os_path.splitext (stem ++ String "." e)
  = if all_dots stem then (stem ++ String "." e, EmptyString)
    else (stem, String "." e).
Proof.
  intros Hstem He Hdot. unfold os_path.splitext, os_path.sep, os_path.extsep.
  rewrite (rfind_absent "/") by (rewrite occurs_app; simpl; by rewrite Hstem, He).
  rewrite (rfind_last "." stem e Hdot).
  replace (-1 <? Z.of_nat (String.length stem))%Z with true
    by (symmetry; apply Z.ltb_lt; lia).
  replace (Z.to_nat (-1 + 1)) with 0 by done.
  replace (Z.to_nat (Z.of_nat (String.length stem) - (-1 + 1)))
    with (String.length stem) by lia.
  rewrite has_non_dot_stem. cbn [andb].
  destruct (all_dots stem); cbn [negb]; [done|].
  by rewrite slice_to_app, slice_from_app.
Qed.

(** X8.  The logical name of a database file is its file name without the
    directory and without the extension: for a file [stem.ext] in any
    directory, the name derived by [get_table_info] (and carried by every
    record of the file) is [stem].  A name whose stem is empty or made of
    dots only, such as [.db], is kept whole. *)
Theorem database_name_is_stem (w : World) (root stem e : string) :
  occurs "/" stem = false -> occurs "/" e = false -> occurs "." e = false ->
  let db_path := os_path.join root (stem ++ String "." e) in
  let name := if all_dots stem then stem ++ String "." e else stem in
  Inspection.database_name_of db_path = name
  /\ Forall (fun info => analyze_database_tables.database_name info = name)
            (fst (analyze_database_tables.get_table_info w db_path)).
Proof.
  intros Hstem He Hdot. cbv zeta.
  assert (Inspection.database_name_of (os_path.join root (stem ++ String "." e))
          = if all_dots stem then stem ++ String "." e else stem) as Hname.
  { unfold Inspection.database_name_of. rewrite basename_join.
    - rewrite splitext_stem by done. by destruct (all_dots stem).
    - rewrite occurs_app. simpl. by rewrite Hstem, He. }
  split; [done|]. rewrite get_table_info_spec. cbn [fst]. rewrite Hname.
  apply Forall_forall. by intros info [t [-> _]]%list_elem_of_fmap.
Qed.

Lemma database_name_is_stem_witness :
  Inspection.database_name_of (os_path.join "dev_20240627/sub" "beta.db") = "beta"
  /\ Inspection.database_name_of (os_path.join "other" "beta.sqlite") = "beta"
  /\ Inspection.database_name_of (os_path.join "dev_20240627" ".db") = ".db".
Proof.
  split; [|split].
  - apply (database_name_is_stem Examples.site "dev_20240627/sub" "beta" "db");
      reflexivity.
  - apply (database_name_is_stem Examples.site "other" "beta" "sqlite"); reflexivity.
  - apply (database_name_is_stem Examples.site "dev_20240627" EmptyString "db");
      reflexivity.
Defined.

Lemma name_ok_spec (n : string) :
  name_ok n = true <-> n <> EmptyString /\ occurs "/" n = false.
Proof.
  unfold name_ok. rewrite andb_true_iff, !negb_true_iff, String.eqb_neq. tauto.
Qed.

Lemma join_join_base (top n : string) :
  name_ok n = true -> os_path.join top n = join_base top ++ n.
Proof.
  intros [Hne Hslash]%name_ok_spec. unfold os_path.join, join_base.
  destruct (String.prefix "/" n) eqn:Hp.
  { apply prefix_slash_occurs in Hp. congruence. }
  destruct (String.eqb top EmptyString || Py.endswith top "/"); [done|].
  by rewrite string_app_assoc.
Qed.

Lemma app_ends_with_slash (a n before : string) :
  n <> EmptyString -> a ++ n = before ++ "/" -> occurs "/" n = true.
Proof.
  revert before. induction a as [|x a IH]; intros before Hn Heq.
  - change (EmptyString ++ n) with n in Heq. subst n.
    rewrite occurs_app. simpl. apply orb_true_r.
  - destruct before as [|y before].
    + rewrite string_app_cons in Heq. injection Heq as _ Heq.
      destruct a; [by destruct n | done].
    + rewrite !string_app_cons in Heq. injection Heq as _ Heq. by eapply IH.
Qed.

Lemma join_base_app (b n : string) :
  name_ok n = true -> join_base (b ++ n) = b ++ n ++ "/".
Proof.
  intros [Hne Hslash]%name_ok_spec. unfold join_base.
  destruct (String.eqb_spec (b ++ n) EmptyString) as [Heq|_].
  { destruct b; [by change (EmptyString ++ n) with n in Heq | done]. }
  destruct (Py.endswith (b ++ n) "/") eqn:Hend.
  - apply endswith_inv in Hend as [before Heq].
    pose proof (app_ends_with_slash b n before Hne Heq). congruence.
  - simpl. by rewrite string_app_assoc.
Qed.

Lemma string_app_inj (a x y : string) : a ++ x = a ++ y -> x = y.
Proof.
  induction a as [|c a IH]; [done|]. rewrite !string_app_cons. intros [= H]. auto.
Qed.

Lemma first_slash_inj (n1 n2 r1 r2 : string) :
  occurs "/" n1 = false -> occurs "/" n2 = false ->
  n1 ++ String "/" r1 = n2 ++ String "/" r2 -> n1 = n2 /\ r1 = r2.
Proof.
  revert n2. induction n1 as [|c n1 IH]; intros [|c2 n2] H1 H2 Heq.
  - change (String "/" r1 = String "/" r2) in Heq. by injection Heq as ->.
  - change (String "/" r1 = String c2 (n2 ++ String "/" r2)) in Heq.
    injection Heq as <- _. by simpl in H2.
  - change (String c (n1 ++ String "/" r1) = String "/" r2) in Heq.
    injection Heq as -> _. by simpl in H1.
  - rewrite !string_app_cons in Heq. injection Heq as -> Heq. simpl in H1, H2.
    apply orb_false_elim in H1 as [_ H1]. apply orb_false_elim in H2 as [_ H2].
    destruct (IH n2 H1 H2 Heq) as [-> ->]. done.
Qed.

Lemma collect_relative (top : string) (dirs files : list string) :
  forallb name_ok files = true ->
  collect (top, dirs, files)
  = map (fun r => join_base top ++ r)
        (filter (fun f => analyze_database_tables.is_database_file f = true) files).
Proof.
  simpl. induction files as [|f files IH]; [done|].
  intros [Hf Hfiles]%andb_prop. cbn [flat_map]. rewrite filter_cons, IH by done.
  destruct (analyze_database_tables.is_database_file f) eqn:E.
  - rewrite decide_True by done. cbn [map app]. by rewrite join_join_base.
  - by rewrite decide_False by done.
Qed.

Lemma tree_ok_Directory (dirs : list (string * Dir)) (files : list string) :
  tree_ok (Directory dirs files) = true ->
  forallb name_ok (map fst dirs) = true /\ forallb name_ok files = true
  /\ NoDup (map fst dirs ++ files)
  /\ Forall (fun entry => tree_ok (snd entry) = true) dirs.
Proof.
  cbn [tree_ok]. intros [[Hnames Hnd]%andb_prop Hsub]%andb_prop.
  rewrite forallb_app in Hnames. apply andb_prop in Hnames as [? ?].
  apply bool_decide_eq_true_1 in Hnd. repeat split; try done.
  apply Forall_forall. intros entry Hin. rewrite forallb_forall in Hsub.
  by apply Hsub, list_elem_of_In.
Qed.

Lemma walk_dir_relative (d : Dir) :
  forall top,
    tree_ok d = true ->
    flat_map collect (walk_dir top d)
    = map (fun r => join_base top ++ r) (relative_paths d).
Proof.
  induction d as [dirs files IH] using Dir_nested_ind. intros top Hok.
  apply tree_ok_Directory in Hok as (Hdirs & Hfiles & _ & Hsub).
  cbn [walk_dir flat_map relative_paths]. rewrite map_app, collect_relative by done.
  f_equal. clear Hfiles.
  induction dirs as [|[n sub] dirs IHdirs]; [done|].
  apply Forall_cons in IH as [IHsub IH]. apply Forall_cons in Hsub as [Hsub Hrest].
  cbn [map fst forallb] in Hdirs. apply andb_prop in Hdirs as [Hn Hdirs].
  cbn [flat_map fst snd]. rewrite flat_map_app, map_app, IHdirs by done.
  f_equal. cbn [snd] in IHsub. rewrite (IHsub _ Hsub), map_map.
  apply map_ext. intros r.
  rewrite join_join_base, join_base_app by done.
  rewrite !string_app_assoc. done.
Qed.

Lemma subdirectory_paths_elem_of (dirs : list (string * Dir)) (x : string) :
  x ∈ flat_map
        (fun entry =>
           map (fun r => fst entry ++ String "/" r) (relative_paths (snd entry)))
        dirs
  <-> exists n sub r, (n, sub) ∈ dirs /\ r ∈ relative_paths sub
                      /\ x = n ++ String "/" r.
Proof.
  rewrite list_elem_of_In, in_flat_map. split.
  - intros ([n sub] & Hin & Hx). apply list_elem_of_In, list_elem_of_fmap in Hx.
    destruct Hx as (r & -> & Hr). exists n, sub, r. by rewrite list_elem_of_In.
  - intros (n & sub & r & Hin & Hr & ->). exists (n, sub).
    split; [by apply list_elem_of_In|].
    apply list_elem_of_In, list_elem_of_fmap. by exists r.
Qed.

Lemma relative_paths_NoDup (d : Dir) :
  tree_ok d = true -> NoDup (relative_paths d).
Proof.
  induction d as [dirs files IH] using Dir_nested_ind. intros Hok.
  apply tree_ok_Directory in Hok as (Hdirs & Hfiles & Hnd & Hsub).
  cbn [relative_paths]. apply NoDup_app in Hnd as (Hnd_dirs & _ & Hnd_files).
  apply NoDup_app. split; [by apply NoDup_filter|]. split.
  - intros x [_ Hx]%list_elem_of_filter (n & sub & r & _ & _ & ->)%subdirectory_paths_elem_of.
    rewrite forallb_forall in Hfiles.
    apply list_elem_of_In, Hfiles, name_ok_spec in Hx as [_ Hx].
    rewrite occurs_app in Hx. simpl in Hx. by rewrite orb_true_r in Hx.
  - clear Hfiles Hnd_files.
    induction dirs as [|[n sub] dirs IHdirs]; [constructor|].
    apply Forall_cons in IH as [IHsub IH]. apply Forall_cons in Hsub as [Hsub Hrest].
    cbn [map fst forallb] in Hdirs, Hnd_dirs.
    apply andb_prop in Hdirs as [Hn Hdirs]. apply NoDup_cons in Hnd_dirs as [Hfresh Hnd_dirs].
    cbn [flat_map fst snd]. apply NoDup_app. split; [|split; [|by apply IHdirs]].
    + assert (Inj (=) (=) (fun r => n ++ String "/" r)).
      { intros r1 r2 Heq. by apply string_app_inj in Heq as [= ->]. }
      apply (NoDup_fmap_2 (fun r => n ++ String "/" r)). by apply IHsub.
    + intros x (r & -> & _)%list_elem_of_fmap
             (n2 & sub2 & r2 & Hin & _ & Heq)%subdirectory_paths_elem_of.
      apply name_ok_spec in Hn as [_ Hn].
      assert (name_ok n2 = true) as [_ Hn2]%name_ok_spec.
      { rewrite forallb_forall in Hdirs. apply Hdirs, list_elem_of_In.
        apply list_elem_of_fmap. by exists (n2, sub2). }
      destruct (first_slash_inj n n2 r r2 Hn Hn2 Heq) as [-> _].
      apply Hfresh, list_elem_of_fmap. by exists (n2, sub2).
Qed.

Lemma prefix_app (a b : string) : String.prefix a (a ++ b) = true.
Proof. apply String.prefix_correct, substring_prefix. Qed.

Lemma prefix_join_base (top r : string) : String.prefix top (join_base top ++ r) = true.
Proof.
  unfold join_base. destruct (_ || _); [apply prefix_app|].
  rewrite string_app_assoc. apply prefix_app.
Qed.

(** X9.  On a directory tree in which names are not empty, hold no slash
    and are not shared by two entries of one directory, the Discoverer
    returns every path once, and every returned path starts with the root
    it was given: it is the root, a separating slash where the root needs
    one, and the path of the file relative to the root. *)
Theorem discovered_paths_distinct (w : World) (root_dir : string) (d : Dir) :
  listing w root_dir = Some d -> tree_ok d = true ->
  let found := analyze_database_tables.get_database_files w root_dir in
  NoDup found
  /\ Forall (fun p => String.prefix root_dir p = true) found
  /\ found = map (fun r => join_base root_dir ++ r) (relative_paths d).
Proof.
  intros Hd Hok. cbv zeta. rewrite get_database_files_collect. unfold os_walk.
  rewrite Hd, walk_dir_relative by done. split; [|split; [|done]].
  - assert (Inj (=) (=) (fun r => join_base root_dir ++ r)).
    { intros r1 r2. apply string_app_inj. }
    apply (NoDup_fmap_2 (fun r => join_base root_dir ++ r)).
    by apply relative_paths_NoDup.
  - apply Forall_forall. intros p (r & -> & _)%list_elem_of_fmap.
    apply prefix_join_base.
Qed.

Lemma discovered_paths_distinct_witness :
  NoDup (analyze_database_tables.get_database_files Examples.site "train").
Proof.
  refine (proj1 (discovered_paths_distinct Examples.site "train" Examples.tree _ _));
    reflexivity.
Defined.

Lemma unreadable_processed (db : Database) (with_count : bool) :
  unreadable db -> processed_tables db with_count = [].
Proof.
  unfold processed_tables. intros [Hc|[e He]].
  - by destruct (connect db).
  - rewrite He. by destruct (connect db).
Qed.

Lemma get_table_info_ext (w w' : World) (db_path : string) :
  sqlite w' db_path = sqlite w db_path ->
  analyze_database_tables.get_table_info w' db_path
  = analyze_database_tables.get_table_info w db_path.
Proof.
  intros H. unfold analyze_database_tables.get_table_info. by rewrite H.
Qed.

(** X10.  A discovered file whose [connect] or table listing raises changes
    neither result: with or without it in the list of discovered files,
    [analyze_columns] returns the same histogram and the reporting script
    writes the same file. *)
Theorem unreadable_file_changes_nothing
    (w w' : World) (before after : list string) (db_file : string) :
  (forall db_path, sqlite w' db_path = sqlite w db_path) ->
  unreadable (sqlite w db_file) ->
  (forall root_dir,
     analyze_database_table_column.get_database_files w root_dir
     = (before ++ after)%list ->
     analyze_database_table_column.get_database_files w' root_dir
     = (before ++ db_file :: after)%list ->
     fst (analyze_database_table_column.analyze_columns w' root_dir)
     = fst (analyze_database_table_column.analyze_columns w root_dir))
  /\ (analyze_database_tables.get_database_files w "dev_20240627"
      = (before ++ after)%list ->
      analyze_database_tables.get_database_files w' "dev_20240627"
      = (before ++ db_file :: after)%list ->
      fst (analyze_database_tables.main w') = fst (analyze_database_tables.main w)).
Proof.
  intros Hdb Hbad. split.
  - intros root_dir Hw Hw'. rewrite !analyze_columns_fold. f_equal.
    unfold observed_counts. rewrite Hw, Hw'.
    rewrite (flat_map_ext _
               (fun f => map (fun item => analyze_database_table_column.count (snd item))
                             (fst (analyze_database_table_column.get_column_stats w f))))
      by (intros f; by rewrite (get_column_stats_ext w w' f (Hdb f))).
    rewrite !flat_map_app. cbn [flat_map].
    rewrite (get_column_stats_spec w db_file), (unreadable_processed _ _ Hbad). done.
  - intros Hw Hw'. rewrite !main_report. f_equal.
    unfold collected_records. rewrite Hw, Hw'.
    rewrite (flat_map_ext _
               (fun f => fst (analyze_database_tables.get_table_info w f)))
      by (intros f; by rewrite (get_table_info_ext w w' f (Hdb f))).
    rewrite !flat_map_app. cbn [flat_map].
    rewrite (get_table_info_spec w db_file), (unreadable_processed _ _ Hbad). done.
Qed.

Lemma unreadable_file_changes_nothing_witness :
  fst (analyze_database_table_column.analyze_columns
         (Examples.flat ["alpha.db"; "corrupt.sqlite"; "beta.db"]) "train")
  = fst (analyze_database_table_column.analyze_columns
           (Examples.flat ["alpha.db"; "beta.db"]) "train")
  /\ fst (analyze_database_tables.main
            (Examples.flat ["alpha.db"; "corrupt.sqlite"; "beta.db"]))
     = fst (analyze_database_tables.main (Examples.flat ["alpha.db"; "beta.db"])).
Proof.
  assert (unreadable (sqlite (Examples.flat ["alpha.db"; "beta.db"])
                             "train/corrupt.sqlite")) as Hbad.
  { right. by eexists. }
  assert (unreadable (sqlite (Examples.flat ["alpha.db"; "beta.db"])
                             "dev_20240627/corrupt.sqlite")) as Hbad'.
  { right. by eexists. }
  split.
  - refine (proj1 (unreadable_file_changes_nothing
                     (Examples.flat ["alpha.db"; "beta.db"])
                     (Examples.flat ["alpha.db"; "corrupt.sqlite"; "beta.db"])
                     ["train/alpha.db"] ["train/beta.db"] "train/corrupt.sqlite"
                     (fun _ => eq_refl) Hbad) "train" _ _); reflexivity.
  - refine (proj2 (unreadable_file_changes_nothing
                     (Examples.flat ["alpha.db"; "beta.db"])
                     (Examples.flat ["alpha.db"; "corrupt.sqlite"; "beta.db"])
                     ["dev_20240627/alpha.db"] ["dev_20240627/beta.db"]
                     "dev_20240627/corrupt.sqlite"
                     (fun _ => eq_refl) Hbad') _ _); reflexivity.
Defined.
